(** * typed-envelopes: the header format and the envelope protocol

    A shallow embedding of [common/common.ts] (byte framing, [AADMeta],
    [TypedBytes], [Wrapper]) and of the [TaggedSecretBox] class that imports
    it, followed by the properties of the wire format and of the encrypt /
    decrypt / inspect operations.

    Conventions.
    - A [Uint8Array] is a [list byte]; every [slice] builds a new list, and no
      function of the sources writes into an array it was given, so buffers are
      passed by value.
    - A JavaScript number that holds a length or an offset is a non-negative
      [Z]; additions that can leave the exactly representable range go through
      [js_add], which rounds as an IEEE-754 double does.
    - A function that can throw returns a [result]; [Throw] carries the
      exception.  [null] is [None].
    - The object [o] of [extractVarintPrefixed], whose field [bs] is
      reassigned, becomes state passing: the function returns the chunk and
      the new [bs]. *)

From Stdlib Require Import ZArith List Ascii String Bool Lia.
From Stdlib Require Import Strings.Byte.
Import ListNotations.

Local Open Scope string_scope.
Local Open Scope list_scope.
Local Open Scope Z_scope.

(** ** Exceptions as values *)

Inductive exn : Type :=
| RangeError (msg : string)
| SyntaxError (msg : string)
| TypeError (msg : string)
| Error (msg : string).

Inductive result (A : Type) : Type :=
| Return (a : A)
| Throw (e : exn).

Arguments Return {A} a.
Arguments Throw {A} e.

Definition bind {A B : Type} (m : result A) (k : A -> result B) : result B :=
  match m with
  | Return a => k a
  | Throw e => Throw e
  end.

Notation "x <- m ;; k" := (bind m (fun x => k))
  (at level 61, m at next level, right associativity).
Notation "' pat <- m ;; k" := (bind m (fun x => match x with pat => k end))
  (at level 61, pat pattern, m at next level, right associativity).

Definition raises {A : Type} (m : result A) : Prop := exists e, m = Throw e.
Definition returns {A : Type} (m : result A) : Prop := exists a, m = Return a.

(** ** Bytes and numbers *)

Definition bytes : Type := list byte.

Definition byte_to_Z (b : byte) : Z := Z.of_N (Byte.to_N b).

(** Storing a number into a [Uint8Array] keeps it modulo 256. *)
Definition byte_of_Z (z : Z) : byte :=
  match Byte.of_N (Z.to_N (z mod 256)) with
  | Some b => b
  | None => x00
  end.

Definition len (bs : bytes) : Z := Z.of_nat (List.length bs).

Definition MAX_SAFE_INTEGER : Z := 2 ^ 53 - 1.

(** The double nearest to a non-negative integer, ties to even. Integers up
    to [2^53] are doubles themselves. *)
Definition double_round (x : Z) : Z :=
  if x <=? 2 ^ 53 then x
  else
    let e := Z.log2 x - 52 in
    let q := x / 2 ^ e in
    let r := x mod 2 ^ e in
    let half := 2 ^ (e - 1) in
    let q' := if r <? half then q
              else if half <? r then q + 1
              else if Z.even q then q else q + 1 in
    q' * 2 ^ e.

(** [a + b] on doubles that hold non-negative integers. *)
Definition js_add (a b : Z) : Z := double_round (a + b).

(** [TypedArray.prototype.slice]: a relative index is clamped to the array. *)
Definition clamp_index (n i : Z) : Z :=
  if i <? 0 then Z.max (n + i) 0 else Z.min i n.

Definition slice (bs : bytes) (start stop : Z) : bytes :=
  let k := clamp_index (len bs) start in
  let f := clamp_index (len bs) stop in
  firstn (Z.to_nat (f - k)) (skipn (Z.to_nat k) bs).

(** [bs.slice(start)]: the end defaults to the length. *)
Definition slice_from (bs : bytes) (start : Z) : bytes :=
  slice bs start (len bs).

(** ** The [varint] package *)

(** Modelled from the spec: the base-128 continuation-bit varint comes from
    the [varint] package, a dependency pinned at ^6.0.0 by [package.json] and
    not part of the sources. [encode], [decode] and [encodingLength] follow
    that package's three functions statement by statement. [encode]'s guard
    against numbers above [MAX_SAFE_INTEGER] is left out: its only argument in
    the sources is the length of a [Uint8Array]. *)
Module Varint.

Definition MSB : Z := 128.       (* 0x80 *)
Definition REST : Z := 127.      (* 0x7F *)
Definition MSBALL : Z := -128.   (* ~REST *)
Definition INT : Z := 2 ^ 31.

(** Modelled from the spec: the second loop of [encode],
    [while (num & MSBALL) { out.push((num & 0xFF) | MSB); num >>>= 7 }],
    then [out.push(num | 0)]. *)
Fixpoint encode_low (fuel : nat) (num : Z) : list Z :=
  match fuel with
  | O => []
  | S fuel' =>
      if Z.land num MSBALL =? 0 then [Z.lor num 0]
      else Z.lor (Z.land num 255) MSB :: encode_low fuel' (Z.shiftr num 7)
  end.

(** Modelled from the spec: the first loop of [encode],
    [while (num >= INT) { out.push((num & 0xFF) | MSB); num /= 128 }].
    The bit operations read the integer part of [num], so the quotient is
    kept as its integer part. *)
Fixpoint encode_high (fuel : nat) (num : Z) : list Z :=
  match fuel with
  | O => []
  | S fuel' =>
      if INT <=? num
      then Z.lor (Z.land num 255) MSB :: encode_high fuel' (num / 128)
      else encode_low fuel num
  end.

(** Modelled from the spec: [encode(num)]. Each turn of either loop divides
    [num] by 128, so one turn per bit of [num], and one more for the last
    byte, is enough. *)
Definition encode (num : Z) : list Z :=
  encode_high (S (Z.to_nat (Z.log2 num))) num.

(** Modelled from the spec: the loop of [decode(buf)] from offset 0; [res]
    and [shift] are the loop's variables. It throws when the buffer ends
    inside the varint or when a ninth byte would be needed. *)
Fixpoint decode_loop (buf : bytes) (res shift : Z) : result Z :=
  match buf with
  | [] => Throw (RangeError "Could not decode varint")
  | b :: rest =>
      if 49 <? shift then Throw (RangeError "Could not decode varint")
      else
        let b := byte_to_Z b in
        let res := js_add res (if shift <? 28
                               then Z.shiftl (Z.land b REST) shift
                               else Z.land b REST * 2 ^ shift) in
        let shift := shift + 7 in
        if MSB <=? b then decode_loop rest res shift else Return res
  end.

Definition decode (buf : bytes) : result Z := decode_loop buf 0 0.

(** Modelled from the spec: [encodingLength(value)], a chain of comparisons
    with the powers of 128. *)
Definition encodingLength (value : Z) : Z :=
  if value <? 2 ^ 7 then 1
  else if value <? 2 ^ 14 then 2
  else if value <? 2 ^ 21 then 3
  else if value <? 2 ^ 28 then 4
  else if value <? 2 ^ 35 then 5
  else if value <? 2 ^ 42 then 6
  else if value <? 2 ^ 49 then 7
  else if value <? 2 ^ 56 then 8
  else if value <? 2 ^ 63 then 9
  else 10.

End Varint.

(** ** Byte framing ([common.ts]) *)

(** [new Uint8Array(n)]. *)
Definition zeros (n : nat) : bytes := repeat x00 n.

(** [ret.set(elem, index)]: [elem] overwrites [ret] from [index] on. *)
Definition set_at (ret elem : bytes) (index : nat) : bytes :=
  firstn index ret ++ elem ++ skipn (index + List.length elem) ret.

(** [concatUint8Arrays(...u8s)]: the total length is summed, a zeroed array of
    that length is allocated, and every input is copied to its place. *)
Definition concatUint8Arrays (u8s : list bytes) : bytes :=
  let totalLen := fold_left (fun acc elem => (acc + List.length elem)%nat) u8s 0%nat in
  let ret := zeros totalLen in
  fst (fold_left
         (fun '(ret, index) elem => (set_at ret elem index, (index + List.length elem)%nat))
         u8s (ret, 0%nat)).

(** [Uint8Array.from(numbers)]. *)
Definition Uint8Array_from (l : list Z) : bytes := map byte_of_Z l.

(** [varintPrefixed(data)]. *)
Definition varintPrefixed (data : bytes) : bytes :=
  concatUint8Arrays [Uint8Array_from (Varint.encode (len data)); data].

(** [extractVarintPrefixed(o)]: returns the chunk and the new value of
    [o.bs]. *)
Definition extractVarintPrefixed (bs : bytes) : result (bytes * bytes) :=
  chunkLen <- Varint.decode bs ;;
  let chunkLenLen := Varint.encodingLength chunkLen in
  let chunk := slice bs chunkLenLen (js_add chunkLen chunkLenLen) in
  Return (chunk, slice_from bs (js_add chunkLen chunkLenLen)).

(** ** The platform and the external collaborators

    The text codec, the semver range matcher, [JSON] and the AEAD cipher are
    not part of the sources; the embedding is parametric in them. *)

(** [TextEncoder.encode] and [TextDecoder.decode] (UTF-8; neither throws). *)
Class TextCodec : Type := {
  utf8_encode : string -> bytes;
  utf8_decode : bytes -> string
}.

(** A string that the codec gives back unchanged. *)
Definition text_ok `{TextCodec} (s : string) : Prop :=
  utf8_decode (utf8_encode s) = s.

(** [semver]'s [Range]: [new Range(s)] throws on a text that is no range,
    [test] never throws on a string, and [Range_toString] is what a template
    literal prints. *)
Class Semver : Type := {
  Range : Type;
  Range_new : string -> result Range;
  Range_test : Range -> string -> bool;
  Range_toString : Range -> string
}.

(** JavaScript values as [JSON.parse] builds them, and [undefined]. A number
    stands for a double; the sources compute with none. *)
Definition number : Type := Z.

#[local] Unset Elimination Schemes.
Inductive value : Type :=
| VUndefined
| VNull
| VBoolean (b : bool)
| VNumber (x : number)
| VString (s : string)
| VArray (elems : list value)
| VObject (props : list (string * value)).
#[local] Set Elimination Schemes.

(** [JSON.parse] throws a [SyntaxError] on a text that is not JSON. *)
Class Json : Type := {
  JSON_parse : string -> result value;
  JSON_stringify : value -> string
}.

(** [@stablelib/chacha20poly1305]: a [Key] is a constructed cipher object.
    [seal] and [open] throw on a nonce of the wrong length; [open] returns
    [null] when authentication fails. *)
Class Cipher : Type := {
  Key : Type;
  seal : Key -> bytes -> bytes -> bytes -> result bytes;
  open : Key -> bytes -> bytes -> bytes -> result (option bytes)
}.

Definition NONCE_LENGTH : Z := 12.

(** ** Property reads on JavaScript values *)

Fixpoint lookup_prop (props : list (string * value)) (name : string) : value :=
  match props with
  | [] => VUndefined
  | (k, v) :: rest => if String.eqb k name then v else lookup_prop rest name
  end.

(** [v.name] for the two names the sources read, [type] and [data], which no
    built-in prototype defines. *)
Definition get_prop (v : value) (name : string) : result value :=
  match v with
  | VUndefined | VNull => Throw (TypeError "Cannot read properties of null")
  | VObject props => Return (lookup_prop props name)
  | _ => Return VUndefined
  end.

(** The member [name] of a value that is neither [null] nor [undefined]. *)
Definition member (v : value) (name : string) : value :=
  match v with
  | VObject props => lookup_prop props name
  | _ => VUndefined
  end.

(** [v == null]. *)
Definition loosely_null (v : value) : bool :=
  match v with
  | VUndefined | VNull => true
  | _ => false
  end.

(** [v !== s] for a string [s]. *)
Definition strict_neq_string (v : value) (s : string) : bool :=
  match v with
  | VString s' => negb (String.eqb s' s)
  | _ => true
  end.

(** A value seen as [T | null]. *)
Definition nullable (v : value) : option value :=
  match v with
  | VNull => None
  | _ => Some v
  end.

(** ** Datagrams *)

Module Datagram.

(** [Datagram<T>]: what an object that is encrypted or asked to decode
    exposes. [serialize] is what the call [serialize()] returned: the record
    stands for an object on which that call returns. When it throws,
    [encrypt] throws with it before the cipher is reached, and no envelope is
    made. *)
Record t (T : Type) : Type := Build {
  type : string;
  version : string;
  serialize : bytes;
  deserialize : bytes -> string -> result (option T)
}.
Arguments Build {T}.
Arguments type {T}.
Arguments version {T}.
Arguments serialize {T}.
Arguments deserialize {T}.

End Datagram.

Module DatagramConstructor.

(** [DatagramConstructor<T>], seen through [Object.create(type.prototype)]:
    the object has the members of the prototype, the [type] getter and the
    [deserialize] method, and no constructor has run. *)
Record t (T : Type) : Type := Build {
  type : string;
  deserialize : bytes -> string -> result (option T)
}.
Arguments Build {T}.
Arguments type {T}.
Arguments deserialize {T}.

End DatagramConstructor.

(** ** The header record *)

Module AADMeta.

Record t : Type := Build {
  version : string;
  type : string;
  nonce : bytes
}.

Definition METADATA_VERSION : string := "0.1.0".

(** What [unpack] returns. *)
Record unpacked : Type := Unpacked {
  metadata : option t;
  rawMetadata : bytes;
  content : bytes
}.

Section WithCodec.
Context `{TextCodec}.

Definition serialize (this : t) : bytes :=
  let data := concatUint8Arrays
                [ varintPrefixed (utf8_encode METADATA_VERSION);
                  varintPrefixed (utf8_encode (version this));
                  varintPrefixed (utf8_encode (type this));
                  varintPrefixed (nonce this) ] in
  varintPrefixed data.

Definition deserialize (data : bytes) : result (option t) :=
  '(field, bs) <- extractVarintPrefixed data ;;
  let metadataVersion := utf8_decode field in
  if negb (String.eqb metadataVersion METADATA_VERSION) then Return None
  else
    '(field1, bs) <- extractVarintPrefixed bs ;;
    '(field2, bs) <- extractVarintPrefixed bs ;;
    '(field3, bs) <- extractVarintPrefixed bs ;;
    let metadata := Build (utf8_decode field1) (utf8_decode field2) field3 in
    if negb (List.length bs =? 0)%nat
    then Throw (Error "unexpected additional content in header")
    else Return (Some metadata).

(** [data.copyWithin(0, 0)] is [data] itself. The [null] in the declared
    result type is kept, although no path returns it. *)
Definition unpack (data : bytes) : result (option unpacked) :=
  '(header, _) <- extractVarintPrefixed data ;;
  let rawMetadata := varintPrefixed header in
  let content := slice_from data (len rawMetadata) in
  let headerBuf := header in
  metadata <- deserialize header ;;
  '(field, _) <- extractVarintPrefixed headerBuf ;;
  let metadataVersion := utf8_decode field in
  if negb (String.eqb metadataVersion METADATA_VERSION)
  then Throw (Error "unrecognized metadata version")
  else Return (Some (Unpacked metadata rawMetadata content)).

End WithCodec.

End AADMeta.

(** ** The wire-bytes wrapper *)

Module TypedBytes.

Record t : Type := Build { buf : bytes }.

Section WithCodec.
Context `{TextCodec}.

Definition inspect (this : t) : result (option AADMeta.t) :=
  parsed <- AADMeta.unpack (buf this) ;;
  match parsed with
  | None => Return None
  | Some p =>
      match AADMeta.metadata p with
      | None => Return None
      | Some m => Return (Some m)
      end
  end.

End WithCodec.

End TypedBytes.

(** ** The Wrapper factory *)

Module Wrapper.

Section WithPlatform.
Context `{TextCodec} `{Semver} `{Json}.

(** What the closure returned by [Wrapper(typeName, versionConstraint)]
    captures: the tag and the parsed constraint. *)
Record factory : Type := Factory {
  typeName : string;
  constraint : Range
}.

(** [Wrapper(typeName, versionConstraint)]: a constraint given as a
    string is parsed once, here. *)
Definition make (typeName : string) (versionConstraint : string + Range)
  : result factory :=
  match versionConstraint with
  | inl s => c <- Range_new s ;; Return (Factory typeName c)
  | inr c => Return (Factory typeName c)
  end.

(** The field [data] of an instance: [{ type: typeName, version, data: obj }]. *)
Definition wrapped (f : factory) (obj : value) (version : string) : value :=
  VObject [ ("type", VString (typeName f));
            ("version", VString version);
            ("data", obj) ].

Definition deserialize (f : factory) (data : bytes) (version : string)
  : result (option value) :=
  ret <- JSON_parse (utf8_decode data) ;;
  if loosely_null ret then Return None
  else
    ty <- get_prop ret "type" ;;
    if strict_neq_string ty (typeName f) then Return None
    else if negb (Range_test (constraint f) version) then Return None
    else
      d <- get_prop ret "data" ;;
      Return (nullable d).

Definition serialize (this_data : value) : bytes :=
  utf8_encode (JSON_stringify this_data).

(** The constructor of the anonymous class. *)
Definition new (f : factory) (obj : value) (version : string)
  : result (Datagram.t value) :=
  if negb (Range_test (constraint f) version)
  then Throw (Error ("invalid version string. " ++ version ++ " not in "
                       ++ Range_toString (constraint f))%string)
  else Return (Datagram.Build (typeName f) version
                 (serialize (wrapped f obj version))
                 (deserialize f)).

(** [static wrap(data, version)]. *)
Definition wrap (f : factory) (data : value) (version : string)
  : result (Datagram.t value) :=
  new f data version.

(** The class itself, as [decrypt] uses it. *)
Definition class (f : factory) : DatagramConstructor.t value :=
  DatagramConstructor.Build (typeName f) (deserialize f).

End WithPlatform.

End Wrapper.

(** ** The envelope *)

Module TaggedSecretBox.

Section WithPlatform.
Context `{TextCodec} `{Cipher}.

Definition encrypt {T : Type} (key : Key) (obj : Datagram.t T) (nonce : bytes)
  : result TypedBytes.t :=
  let aad := AADMeta.Build (Datagram.version obj) (Datagram.type obj) nonce in
  let aadSerialized := AADMeta.serialize aad in
  sealed <- seal key nonce (Datagram.serialize obj) aadSerialized ;;
  Return (TypedBytes.Build (concatUint8Arrays [aadSerialized; sealed])).

(** [nonce] defaults to [randomBytes(NONCE_LENGTH)]. *)
Definition encrypt_default {T : Type} (randomBytes : Z -> bytes)
    (key : Key) (obj : Datagram.t T) : result TypedBytes.t :=
  encrypt key obj (randomBytes NONCE_LENGTH).

Definition decrypt {T : Type} (key : Key) (type : DatagramConstructor.t T)
    (typedBytes : TypedBytes.t) : result (option T) :=
  unpacked <- AADMeta.unpack (TypedBytes.buf typedBytes) ;;
  match unpacked with
  | None => Return None
  | Some u =>
      match AADMeta.metadata u with
      | None => Return None
      | Some m =>
          decrypted <- open key (AADMeta.nonce m) (AADMeta.content u)
                         (AADMeta.rawMetadata u) ;;
          match decrypted with
          | None => Return None
          | Some plaintext =>
              let obj := type in
              candidate <- DatagramConstructor.deserialize obj plaintext
                             (AADMeta.version m) ;;
              if String.eqb (DatagramConstructor.type obj) (AADMeta.type m)
              then Return candidate
              else Return None
          end
      end
  end.

End WithPlatform.

End TaggedSecretBox.

(** ** Payload types

    The capability contract, as a hand-written payload class meets it: the tag
    sits on the prototype, the version and the serialised form belong to the
    value, and the class brings its own notion of equality. *)
Class DatagramClass (T : Type) : Type := {
  tag : string;
  version_of : T -> string;
  serialize_of : T -> bytes;
  deserialize_of : bytes -> string -> result (option T);
  equal : T -> T -> Prop
}.

(** The value as [encrypt] sees it. *)
Definition datagram_of {T : Type} `{DatagramClass T} (v : T) : Datagram.t T :=
  Datagram.Build tag (version_of v) (serialize_of v) deserialize_of.

(** Its class as [decrypt] sees it. *)
Definition type_of (T : Type) `{DatagramClass T} : DatagramConstructor.t T :=
  DatagramConstructor.Build tag deserialize_of.

(** A value keeps the contract when its class decodes its serialised form, at
    its version, to an equal value of the same version. *)
Definition keeps_contract {T : Type} `{DatagramClass T} (v : T) : Prop :=
  exists r, deserialize_of (serialize_of v) (version_of v) = Return (Some r)
            /\ equal r v
            /\ version_of r = version_of v.

(** [Example] of [test/secretbox.test.ts], with the tag as a parameter: the
    payload is the byte array itself, and [deserialize] accepts the versions
    in the range [0.1.*]. *)
Module Example.

Record t : Type := Build {
  data : bytes;
  version : string
}.

Section WithSemver.
Context `{Semver}.
Variable type : string.

Definition deserialize (data : bytes) (version : string) : result (option t) :=
  range <- Range_new "0.1.*" ;;
  if negb (Range_test range version) then Return None
  else Return (Some (Build data version)).

Definition serialize (this : t) : bytes := data this.

Definition class : DatagramClass t :=
  {| tag := type;
     version_of := version;
     serialize_of := serialize;
     deserialize_of := deserialize;
     equal := eq |}.

End WithSemver.

End Example.

(** ** The wire format in the words of the specification *)

Module Layout.

(** The base-128 groups of a number, least significant first. *)
Fixpoint groups (fuel : nat) (n : Z) : list Z :=
  match fuel with
  | O => []
  | S fuel' => if n <? 128 then [n] else n mod 128 :: groups fuel' (n / 128)
  end.

(** Every group but the last carries the continuation flag. *)
Fixpoint flagged (gs : list Z) : list Z :=
  match gs with
  | [] => []
  | [g] => [g]
  | g :: rest => g + 128 :: flagged rest
  end.

Definition varint (n : Z) : bytes :=
  map byte_of_Z (flagged (groups (S (Z.to_nat (Z.log2 n))) n)).

(** [length_prefix(buffer) = varint(len(buffer)) || buffer]. *)
Definition length_prefix (buffer : bytes) : bytes :=
  varint (len buffer) ++ buffer.

(** The number a sequence of groups stands for. *)
Fixpoint value_of (bs : bytes) : Z :=
  match bs with
  | [] => 0
  | b :: rest => byte_to_Z b mod 128 + 128 * value_of rest
  end.

(** The continuation flag is set on every byte but the last. *)
Fixpoint well_flagged (bs : bytes) : bool :=
  match bs with
  | [] => false
  | [b] => byte_to_Z b <? 128
  | b :: rest => (128 <=? byte_to_Z b) && well_flagged rest
  end.

(** The header of section 4.2. *)
Definition header `{TextCodec} (payload_version payload_type : string)
    (nonce : bytes) : bytes :=
  length_prefix
    (length_prefix (utf8_encode "0.1.0")
       ++ length_prefix (utf8_encode payload_version)
       ++ length_prefix (utf8_encode payload_type)
       ++ length_prefix nonce).

End Layout.

(** ** Instances of the collaborators, for the examples *)

(** Modelled from the spec: the text codec is not part of the sources. On
    texts of one-byte characters it is the identity. *)
Definition byte_codec : TextCodec :=
  {| utf8_encode := list_byte_of_string;
     utf8_decode := string_of_list_byte |}.

(** Modelled from the spec: the AEAD cipher is not part of the sources. The
    cipher that seals nothing meets the interface and the law
    [open (seal p) = p], which is all the examples ask of a cipher. *)
Definition clear_cipher : Cipher :=
  {| Key := bytes;
     seal := fun _ _ plaintext _ => Return plaintext;
     open := fun _ _ sealed _ => Return (Some sealed) |}.

(** A decimal digit. *)
Definition is_digit (c : Ascii.ascii) : bool :=
  let n := Ascii.nat_of_ascii c in (48 <=? n)%nat && (n <=? 57)%nat.

(** Modelled from the spec: the range matcher is not part of the sources.
    This one knows the one range of the tests, [0.1.*], and the versions
    written [0.1.d] with a single digit [d]. *)
Definition test_0_1_x (version : string) : bool :=
  match version with
  | String "0"%char (String "."%char (String "1"%char (String "."%char
      (String d EmptyString)))) =>
      is_digit d
  | _ => false
  end.

Definition range_0_1_x : Semver :=
  {| Range := unit;
     Range_new := fun s => if String.eqb s "0.1.*" then Return tt
                           else Throw (TypeError ("Invalid comparator: " ++ s)%string);
     Range_test := fun _ => test_0_1_x;
     Range_toString := fun _ => ">=0.1.0 <0.2.0-0" |}.

(** Modelled from the spec: the generic codec is not part of the sources.
    This is [JSON.parse] on the empty text, which it rejects, and on the text
    [null]; the instance knows no other text. *)
Definition json_null_only : Json :=
  {| JSON_parse := fun s => if String.eqb s "null" then Return VNull
                            else Throw (SyntaxError "Unexpected end of JSON input");
     JSON_stringify := fun _ => "null" |}.

(** The scenario of the specification: a key of 32 zero bytes, the payload
    [1, 2, 3, 4, 5], the tag "x" and the version "0.1.0". *)
Definition zero_key : bytes := repeat x00 32.

Definition nonce_12 : bytes :=
  [x00; x01; x02; x03; x04; x05; x06; x07; x08; x09; x0a; x0b].

Definition payload_5 : Example.t :=
  Example.Build [x01; x02; x03; x04; x05] "0.1.0".

Definition class_x : DatagramClass Example.t := @Example.class range_0_1_x "x".

(** A header that is well formed but for its format version, "9.9.9". *)
Definition header_9_9_9 : bytes :=
  Layout.length_prefix
    (Layout.length_prefix (list_byte_of_string "9.9.9")
       ++ Layout.length_prefix (list_byte_of_string "0.1.0")
       ++ Layout.length_prefix (list_byte_of_string "x")
       ++ Layout.length_prefix nonce_12).

(** A header with one byte too many after its four fields. *)
Definition header_trailing : bytes :=
  Layout.length_prefix
    (Layout.length_prefix (list_byte_of_string "0.1.0")
       ++ Layout.length_prefix (list_byte_of_string "0.1.0")
       ++ Layout.length_prefix (list_byte_of_string "x")
       ++ Layout.length_prefix nonce_12
       ++ [xff]).

(** A buffer that is no envelope. *)
Definition hello : bytes := list_byte_of_string "hello".

(** The factory [Wrapper('foo', '0.1.*')] of the tests. *)
Definition Foo : @Wrapper.factory range_0_1_x := @Wrapper.Factory range_0_1_x "foo" tt.

(** ** The versioned classes of the tests

    [FooV011] and [FooV012] of the test [versioned demo]: both have the tag of
    [FooBase]; each [deserialize] accepts its own version string only, and
    builds the instance from the members of the decoded object, whatever they
    are. No built-in prototype defines a member named [a], [b], [c] or [d]. *)
Module FooBase.

Definition type : string := "ddl://skiff/foo".

End FooBase.

Module FooV011.

Record t : Type := Build {
  a : value;
  b : value;
  c : value
}.

Definition version : string := "0.1.1".

Section WithPlatform.
Context `{TextCodec} `{Json}.

Definition serialize (this : t) : bytes :=
  utf8_encode
    (JSON_stringify (VObject [("a", a this); ("b", b this); ("c", c this)])).

Definition deserialize (data : bytes) (version' : string) : result (option t) :=
  if String.eqb version' version then
    des <- JSON_parse (utf8_decode data) ;;
    a <- get_prop des "a" ;;
    b <- get_prop des "b" ;;
    c <- get_prop des "c" ;;
    Return (Some (Build a b c))
  else Return None.

(** An instance as [encrypt] sees it, and the class as [decrypt] sees it. *)
Definition datagram (this : t) : Datagram.t t :=
  Datagram.Build FooBase.type version (serialize this) deserialize.

Definition class : DatagramConstructor.t t :=
  DatagramConstructor.Build FooBase.type deserialize.

End WithPlatform.

End FooV011.

Module FooV012.

Record t : Type := Build {
  a : value;
  b : value;
  c : value;
  d : value
}.

Definition version : string := "0.1.2".

Section WithPlatform.
Context `{TextCodec} `{Json}.

Definition serialize (this : t) : bytes :=
  utf8_encode
    (JSON_stringify
       (VObject [("a", a this); ("b", b this); ("c", c this); ("d", d this)])).

Definition deserialize (data : bytes) (version' : string) : result (option t) :=
  if String.eqb version' version then
    des <- JSON_parse (utf8_decode data) ;;
    a <- get_prop des "a" ;;
    b <- get_prop des "b" ;;
    c <- get_prop des "c" ;;
    d <- get_prop des "d" ;;
    Return (Some (Build a b c d))
  else Return None.

Definition datagram (this : t) : Datagram.t t :=
  Datagram.Build FooBase.type version (serialize this) deserialize.

Definition class : DatagramConstructor.t t :=
  DatagramConstructor.Build FooBase.type deserialize.

End WithPlatform.

End FooV012.

(** Modelled from the spec: the generic codec is not part of the sources.
    This instance is a table of one line: it prints every value as [text] and
    reads [text], and no other text, as [v]. *)
Definition json_table (text : string) (v : value) : Json :=
  {| JSON_parse := fun s => if String.eqb s text then Return v
                            else Throw (SyntaxError "Unexpected token");
     JSON_stringify := fun _ => text |}.

(** The object [foo] of the test [datagram wrapper], [{ a: 1, b: 2, c: [3, 4,
    5] }], what [Foo.wrap(foo, '0.1.0')] holds, and the JSON text of it. *)
Definition foo_abc : value :=
  VObject [("a", VNumber 1); ("b", VNumber 2);
           ("c", VArray [VNumber 3; VNumber 4; VNumber 5])].

Definition foo_wrapped_text : string :=
  string_of_list_byte
    [x7b; x22; x74; x79; x70; x65; x22; x3a; x22; x66; x6f; x6f; x22; x2c;
     x22; x76; x65; x72; x73; x69; x6f; x6e; x22; x3a; x22; x30; x2e; x31;
     x2e; x30; x22; x2c; x22; x64; x61; x74; x61; x22; x3a; x7b; x22; x61;
     x22; x3a; x31; x2c; x22; x62; x22; x3a; x32; x2c; x22; x63; x22; x3a;
     x5b; x33; x2c; x34; x2c; x35; x5d; x7d; x7d].

Definition json_foo : Json :=
  json_table foo_wrapped_text (@Wrapper.wrapped range_0_1_x Foo foo_abc "0.1.0").

(** The factory [Wrapper('bar', '0.1.*')]. *)
Definition Bar : @Wrapper.factory range_0_1_x := @Wrapper.Factory range_0_1_x "bar" tt.

(** [new FooV011(1, 2, [3])] and [new FooV012(1, 2, [3], 'four')] of the test
    [versioned demo], and the JSON text of the first. *)
Definition f011 : FooV011.t :=
  FooV011.Build (VNumber 1) (VNumber 2) (VArray [VNumber 3]).

Definition f012 : FooV012.t :=
  FooV012.Build (VNumber 1) (VNumber 2) (VArray [VNumber 3]) (VString "four").

Definition f011_text : string :=
  string_of_list_byte
    [x7b; x22; x61; x22; x3a; x31; x2c; x22; x62; x22; x3a; x32; x2c; x22;
     x63; x22; x3a; x5b; x33; x5d; x7d].

Definition json_f011 : Json :=
  json_table f011_text
    (VObject [("a", VNumber 1); ("b", VNumber 2); ("c", VArray [VNumber 3])]).

(** An [Example] whose version its own class does not accept. *)
Definition payload_0_2_0 : Example.t :=
  Example.Build [x01; x02; x03; x04; x05] "0.2.0".

(** The three exceptions of header parsing. *)
Definition header_exception (e : exn) : Prop :=
  e = RangeError "Could not decode varint"
  \/ e = Error "unexpected additional content in header"
  \/ e = Error "unrecognized metadata version".





(** The header of the scenario. *)
Definition header_x : AADMeta.t := AADMeta.Build "0.1.0" "x" nonce_12.

(** A string as the header carries it: encoded, then decoded. The codec
    gives a string back when this is the string itself. *)
Definition recode `{TextCodec} (s : string) : string :=
  utf8_decode (utf8_encode s).

(** Modelled from the spec: the text codec is not part of the sources. Here
    a text is kept as its UTF-8 bytes, and decoding drops a leading
    byte-order mark (EF BB BF), as [TextDecoder] does unless told
    otherwise. *)
Definition strip_bom (bs : bytes) : bytes :=
  match bs with
  | xef :: xbb :: xbf :: rest => rest
  | _ => bs
  end.

Definition bom_codec : TextCodec :=
  {| utf8_encode := list_byte_of_string;
     utf8_decode := fun bs => string_of_list_byte (strip_bom bs) |}.

(** The tag made of a byte-order mark and the letter x, and the class
    [Example] under that tag. *)
Definition bom_x : string := string_of_list_byte [xef; xbb; xbf; x78].

Definition class_bom_x : DatagramClass Example.t := @Example.class range_0_1_x bom_x.

(** * Properties *)

(** ** Bytes *)

Lemma byte_to_Z_range (b : byte) : 0 <= byte_to_Z b < 256.
Proof.
  unfold byte_to_Z. pose proof (Byte.to_N_bounded b). lia.
Qed.

Lemma byte_to_of_Z (z : Z) : 0 <= z < 256 -> byte_to_Z (byte_of_Z z) = z.
Proof.
  intros Hz. unfold byte_to_Z, byte_of_Z.
  rewrite Z.mod_small by lia.
  destruct (Byte.of_N (Z.to_N z)) as [b|] eqn:E.
  - apply Byte.to_of_N in E. rewrite E. lia.
  - apply Byte.of_N_None_iff in E. lia.
Qed.

(** ** Numbers *)

Lemma double_round_exact (x : Z) : x <= 2 ^ 53 -> double_round x = x.
Proof.
  intros Hx. unfold double_round.
  destruct (x <=? 2 ^ 53) eqn:E; [reflexivity | apply Z.leb_gt in E; lia].
Qed.

Lemma double_round_large (x : Z) : 2 ^ 53 < x -> 2 ^ 53 <= double_round x.
Proof.
  intros Hx. unfold double_round.
  destruct (x <=? 2 ^ 53) eqn:E; [apply Z.leb_le in E; lia|].
  assert (Hl : 53 <= Z.log2 x) by (apply Z.log2_le_pow2; lia).
  set (e := Z.log2 x - 52).
  assert (He : 0 < e) by (unfold e; lia).
  assert (Hq : 2 ^ 52 <= x / 2 ^ e).
  { apply Z.div_le_lower_bound; [apply Z.pow_pos_nonneg; lia|].
    rewrite Z.mul_comm, <- Z.pow_add_r by lia.
    replace (52 + e) with (Z.log2 x) by (unfold e; lia).
    apply Z.log2_spec. lia. }
  assert (Hp : 0 < 2 ^ e) by (apply Z.pow_pos_nonneg; lia).
  assert (Hp1 : 2 <= 2 ^ e).
  { change 2 with (2 ^ 1) at 1. apply Z.pow_le_mono_r; lia. }
  cbv zeta.
  assert (Hq' : forall q', x / 2 ^ e <= q' -> 2 ^ 53 <= q' * 2 ^ e) by (intros; nia).
  destruct (x mod 2 ^ e <? 2 ^ (e - 1)); [apply Hq'; lia|].
  destruct (2 ^ (e - 1) <? x mod 2 ^ e); [apply Hq'; lia|].
  destruct (Z.even (x / 2 ^ e)); apply Hq'; lia.
Qed.

Lemma js_add_exact (a b : Z) : a + b <= 2 ^ 53 -> js_add a b = a + b.
Proof. apply double_round_exact. Qed.

(** ** Slices *)

Lemma len_nonneg (bs : bytes) : 0 <= len bs.
Proof. unfold len. lia. Qed.

Lemma len_app (a b : bytes) : len (a ++ b) = len a + len b.
Proof. unfold len. rewrite length_app. lia. Qed.

Lemma slice_firstn_skipn (bs : bytes) (s e : Z) :
  0 <= s -> s <= e ->
  slice bs s e = firstn (Z.to_nat (e - s)) (skipn (Z.to_nat s) bs).
Proof.
  intros Hs He. unfold slice, clamp_index.
  pose proof (len_nonneg bs) as Hl. unfold len in *.
  destruct (s <? 0) eqn:E1; [apply Z.ltb_lt in E1; lia|].
  destruct (e <? 0) eqn:E2; [apply Z.ltb_lt in E2; lia|].
  destruct (Z.le_gt_cases s (Z.of_nat (List.length bs))) as [Hin|Hout].
  - rewrite (Z.min_l s) by lia.
    destruct (Z.le_gt_cases e (Z.of_nat (List.length bs))) as [Hin'|Hout'].
    + rewrite Z.min_l by lia. reflexivity.
    + rewrite Z.min_r by lia.
      rewrite !firstn_all2; try reflexivity; rewrite length_skipn; lia.
  - rewrite !skipn_all2 by lia. rewrite !firstn_nil. reflexivity.
Qed.

Lemma slice_from_skipn (bs : bytes) (s : Z) :
  0 <= s -> slice_from bs s = skipn (Z.to_nat s) bs.
Proof.
  intros Hs. unfold slice_from, slice, clamp_index.
  pose proof (len_nonneg bs) as Hl. unfold len in *.
  destruct (s <? 0) eqn:E1; [apply Z.ltb_lt in E1; lia|].
  destruct (Z.of_nat (List.length bs) <? 0) eqn:E2; [apply Z.ltb_lt in E2; lia|].
  rewrite Z.min_id.
  destruct (Z.le_gt_cases s (Z.of_nat (List.length bs))) as [Hin|Hout].
  - rewrite Z.min_l by lia. apply firstn_all2. rewrite length_skipn. lia.
  - rewrite Z.min_r by lia. rewrite !skipn_all2 by lia. apply firstn_nil.
Qed.

(** ** Concatenation *)

Lemma set_at_zeros (done elem : bytes) (n : nat) :
  set_at (done ++ zeros (List.length elem + n)) elem (List.length done)
  = (done ++ elem) ++ zeros n.
Proof.
  unfold set_at, zeros.
  rewrite firstn_app, firstn_all, Nat.sub_diag, firstn_O, app_nil_r.
  rewrite repeat_app, skipn_app, (skipn_all2 done) by lia.
  rewrite skipn_app, skipn_all2 by (rewrite repeat_length; lia).
  rewrite repeat_length.
  replace (List.length done + List.length elem - List.length done
           - List.length elem)%nat with 0%nat by lia.
  cbn [app skipn]. rewrite <- app_assoc. reflexivity.
Qed.

Lemma total_length_concat (u8s : list bytes) (acc : nat) :
  fold_left (fun acc elem => (acc + List.length elem)%nat) u8s acc
  = (acc + List.length (List.concat u8s))%nat.
Proof.
  revert acc. induction u8s as [|elem u8s IH]; intros acc; cbn [fold_left List.concat].
  - cbn. lia.
  - rewrite IH, length_app. lia.
Qed.

Lemma copy_loop_concat (u8s : list bytes) (done : bytes) :
  fst (fold_left
         (fun '(ret, index) elem =>
            (set_at ret elem index, (index + List.length elem)%nat))
         u8s (done ++ zeros (List.length (List.concat u8s)), List.length done))
  = done ++ List.concat u8s.
Proof.
  revert done. induction u8s as [|elem u8s IH]; intros done; cbn [fold_left List.concat].
  - cbn. reflexivity.
  - rewrite length_app, set_at_zeros.
    replace (List.length done + List.length elem)%nat
      with (List.length (done ++ elem)) by (rewrite length_app; reflexivity).
    rewrite IH, <- app_assoc. reflexivity.
Qed.

Lemma concatUint8Arrays_concat (u8s : list bytes) :
  concatUint8Arrays u8s = List.concat u8s.
Proof.
  unfold concatUint8Arrays. rewrite total_length_concat. cbn [Nat.add].
  apply (copy_loop_concat u8s []).
Qed.

(** ** The encoder writes base-128 groups *)

Lemma land_255 (num : Z) : Z.land num 255 = num mod 256.
Proof. change 255 with (Z.ones 8). rewrite Z.land_ones by lia. reflexivity. Qed.

Lemma land_127 (b : Z) : Z.land b 127 = b mod 128.
Proof. change 127 with (Z.ones 7). rewrite Z.land_ones by lia. reflexivity. Qed.

Lemma lor_128 (x : Z) : 0 <= x < 256 -> Z.lor x 128 = x mod 128 + 128.
Proof.
  intros Hx.
  assert (Hall : forallb (fun n => Z.lor (Z.of_nat n) 128 =? Z.of_nat n mod 128 + 128)
                   (seq 0 256) = true) by (vm_compute; reflexivity).
  rewrite forallb_forall in Hall.
  specialize (Hall (Z.to_nat x)).
  rewrite Z2Nat.id in Hall by lia.
  apply Z.eqb_eq, Hall, in_seq. lia.
Qed.

Lemma flag_byte (num : Z) :
  Z.lor (Z.land num 255) Varint.MSB = num mod 128 + 128.
Proof.
  unfold Varint.MSB. rewrite land_255, lor_128 by (apply Z.mod_pos_bound; lia).
  f_equal. change 256 with (128 * 2).
  rewrite Z.rem_mul_r by lia.
  rewrite (Z.mul_comm 128), Z.mod_add by lia. apply Z.mod_mod. lia.
Qed.

Lemma land_MSBALL (num : Z) :
  0 <= num -> (Z.land num Varint.MSBALL =? 0) = (num <? 128).
Proof.
  intros Hn. unfold Varint.MSBALL.
  change (-128) with (Z.lnot (Z.ones 7)).
  rewrite <- Z.ldiff_land, Z.ldiff_ones_r by lia.
  rewrite Z.shiftr_div_pow2, Z.shiftl_mul_pow2 by lia.
  change (2 ^ 7) with 128.
  destruct (num <? 128) eqn:E.
  - apply Z.ltb_lt in E. rewrite Z.div_small by lia. reflexivity.
  - apply Z.ltb_ge in E. apply Z.eqb_neq.
    assert (1 <= num / 128) by (apply Z.div_le_lower_bound; lia). lia.
Qed.

Lemma flagged_cons (g : Z) (gs : list Z) :
  gs <> [] -> Layout.flagged (g :: gs) = g + 128 :: Layout.flagged gs.
Proof. destruct gs; [congruence | reflexivity]. Qed.

Lemma groups_nonempty (fuel : nat) (n : Z) :
  (1 <= fuel)%nat -> Layout.groups fuel n <> [].
Proof.
  destruct fuel as [|fuel]; [lia|]. intros _. cbn [Layout.groups].
  destruct (n <? 128); discriminate.
Qed.

(** When [128 <= n < 2 ^ (fuel + 1)], the quotient still fits the fuel. *)
Lemma fuel_step (fuel : nat) (n : Z) :
  128 <= n < 2 ^ Z.of_nat (S fuel) ->
  (1 <= fuel)%nat /\ 0 <= n / 128 < 2 ^ Z.of_nat fuel /\ 1 <= n / 128.
Proof.
  intros [Hlo Hhi].
  assert (H7 : (7 <= fuel)%nat).
  { destruct (Nat.le_gt_cases 7 fuel) as [|Hlt]; [assumption|].
    assert (2 ^ Z.of_nat (S fuel) <= 2 ^ 7) by (apply Z.pow_le_mono_r; lia).
    change (2 ^ 7) with 128 in *. lia. }
  split; [lia|].
  assert (H1 : 1 <= n / 128) by (apply Z.div_le_lower_bound; lia).
  split; [split; [lia|] | assumption].
  apply Z.div_lt_upper_bound; [lia|].
  replace (Z.of_nat (S fuel)) with (Z.of_nat fuel + 1) in Hhi by lia.
  rewrite Z.pow_add_r in Hhi by lia. change (2 ^ 1) with 2 in Hhi.
  assert (0 < 2 ^ Z.of_nat fuel) by (apply Z.pow_pos_nonneg; lia). lia.
Qed.

Lemma encode_low_groups (fuel : nat) (num : Z) :
  (1 <= fuel)%nat -> 0 <= num < 2 ^ Z.of_nat fuel ->
  Varint.encode_low fuel num = Layout.flagged (Layout.groups fuel num).
Proof.
  revert num. induction fuel as [|fuel IH]; intros num Hf Hn; [lia|].
  cbn [Varint.encode_low Layout.groups].
  rewrite land_MSBALL by lia.
  destruct (num <? 128) eqn:E.
  - cbn [Layout.flagged]. rewrite Z.lor_0_r. reflexivity.
  - apply Z.ltb_ge in E.
    destruct (fuel_step fuel num) as (Hf' & Hq & _); [lia|].
    rewrite flagged_cons by (apply groups_nonempty; assumption).
    rewrite flag_byte, Z.shiftr_div_pow2 by lia. change (2 ^ 7) with 128.
    rewrite IH by assumption. reflexivity.
Qed.

Lemma encode_high_groups (fuel : nat) (num : Z) :
  (1 <= fuel)%nat -> 0 <= num < 2 ^ Z.of_nat fuel ->
  Varint.encode_high fuel num = Layout.flagged (Layout.groups fuel num).
Proof.
  revert num. induction fuel as [|fuel IH]; intros num Hf Hn; [lia|].
  cbn [Varint.encode_high].
  destruct (Varint.INT <=? num) eqn:E.
  - apply Z.leb_le in E. unfold Varint.INT in E.
    assert (H128 : 128 <= num) by (change (2 ^ 31) with 2147483648 in E; lia).
    cbn [Layout.groups].
    destruct (num <? 128) eqn:E'; [apply Z.ltb_lt in E'; lia|].
    destruct (fuel_step fuel num) as (Hf' & Hq & _); [lia|].
    rewrite flagged_cons by (apply groups_nonempty; assumption).
    rewrite flag_byte, IH by assumption. reflexivity.
  - apply encode_low_groups; assumption.
Qed.

Lemma log2_fuel (n : Z) : 0 <= n -> 0 <= n < 2 ^ Z.of_nat (S (Z.to_nat (Z.log2 n))).
Proof.
  intros Hn. split; [assumption|].
  pose proof (Z.log2_nonneg n).
  replace (Z.of_nat (S (Z.to_nat (Z.log2 n)))) with (Z.succ (Z.log2 n)) by lia.
  destruct (Z.eq_dec n 0) as [->|Hn0]; [cbn; lia|].
  apply Z.log2_spec. lia.
Qed.

(** The encoder of the package writes the varint of the specification. *)
Lemma encode_is_varint (n : Z) :
  0 <= n -> Uint8Array_from (Varint.encode n) = Layout.varint n.
Proof.
  intros Hn. unfold Uint8Array_from, Varint.encode, Layout.varint.
  rewrite encode_high_groups; [reflexivity | lia | apply log2_fuel; assumption].
Qed.

Lemma varintPrefixed_length_prefix (data : bytes) :
  varintPrefixed data = Layout.length_prefix data.
Proof.
  unfold varintPrefixed, Layout.length_prefix.
  rewrite concatUint8Arrays_concat, encode_is_varint by apply len_nonneg.
  cbn [List.concat]. rewrite app_nil_r. reflexivity.
Qed.

(** ** The decoder reads them back *)

(** The summand of one turn of the decoder's loop. *)
Lemma decode_term (b shift : Z) :
  0 <= shift ->
  (if shift <? 28 then Z.shiftl (Z.land b Varint.REST) shift
   else Z.land b Varint.REST * 2 ^ shift) = b mod 128 * 2 ^ shift.
Proof.
  intros Hs. unfold Varint.REST. rewrite land_127.
  destruct (shift <? 28); [apply Z.shiftl_mul_pow2; assumption | reflexivity].
Qed.

(** A shift that is a multiple of 7 and at most 53 is at most 49. *)
Lemma shift_in_range (m k : Z) :
  0 <= k -> 1 <= m \/ k = 0 -> m * 2 ^ (7 * k) <= 2 ^ 53 -> (49 <? 7 * k) = false.
Proof.
  intros Hk Hm Hb. apply Z.ltb_ge.
  destruct Hm as [Hm| ->]; [|lia].
  destruct (Z.le_gt_cases k 7) as [|Hgt]; [lia|].
  assert (2 ^ 56 <= 2 ^ (7 * k)) by (apply Z.pow_le_mono_r; lia).
  assert (2 ^ 53 < 2 ^ 56) by (apply Z.pow_lt_mono_r; lia).
  nia.
Qed.

Lemma decode_loop_groups (fuel : nat) :
  forall (m res k : Z) (rest : bytes),
    (1 <= fuel)%nat -> 0 <= m < 2 ^ Z.of_nat fuel ->
    0 <= k -> 1 <= m \/ k = 0 ->
    0 <= res -> res + m * 2 ^ (7 * k) <= 2 ^ 53 ->
    Varint.decode_loop
      (map byte_of_Z (Layout.flagged (Layout.groups fuel m)) ++ rest) res (7 * k)
    = Return (res + m * 2 ^ (7 * k)).
Proof.
  induction fuel as [|fuel IH]; intros m res k rest Hf Hm Hk Hmk Hres Hb; [lia|].
  assert (Hpow : 0 < 2 ^ (7 * k)) by (apply Z.pow_pos_nonneg; lia).
  assert (Hshift : (49 <? 7 * k) = false) by (apply (shift_in_range m); [lia | lia | nia]).
  cbn [Layout.groups].
  destruct (m <? 128) eqn:E.
  - apply Z.ltb_lt in E.
    cbn [Layout.flagged map app Varint.decode_loop]. rewrite Hshift.
    rewrite byte_to_of_Z by lia.
    rewrite decode_term by lia. rewrite Z.mod_small by lia.
    rewrite js_add_exact by lia.
    unfold Varint.MSB. destruct (128 <=? m) eqn:E'; [apply Z.leb_le in E'; lia|].
    reflexivity.
  - apply Z.ltb_ge in E.
    destruct (fuel_step fuel m) as (Hf' & Hq & Hq1); [lia|].
    rewrite flagged_cons by (apply groups_nonempty; assumption).
    cbn [map app Varint.decode_loop]. rewrite Hshift.
    pose proof (Z.mod_pos_bound m 128 ltac:(lia)) as Hmod.
    rewrite byte_to_of_Z by lia.
    rewrite decode_term by lia.
    replace ((m mod 128 + 128) mod 128) with (m mod 128)
      by (replace (m mod 128 + 128) with (m mod 128 + 1 * 128) by lia;
          rewrite Z.mod_add by lia; rewrite Z.mod_mod by lia; reflexivity).
    assert (Hsplit : m * 2 ^ (7 * k)
                     = m mod 128 * 2 ^ (7 * k) + m / 128 * 2 ^ (7 * (k + 1))).
    { replace (7 * (k + 1)) with (7 * k + 7) by lia.
      rewrite Z.pow_add_r by lia. change (2 ^ 7) with 128.
      rewrite (Z.div_mod m 128) at 1 by lia. ring. }
    assert (0 <= m / 128 * 2 ^ (7 * (k + 1)))
      by (apply Z.mul_nonneg_nonneg; [lia | apply Z.pow_nonneg; lia]).
    rewrite js_add_exact by nia.
    unfold Varint.MSB.
    destruct (128 <=? m mod 128 + 128) eqn:E'; [|apply Z.leb_gt in E'; lia].
    replace (7 * k + 7) with (7 * (k + 1)) by lia.
    rewrite IH; [f_equal; lia | assumption | assumption | lia | lia | lia | lia].
Qed.

(** Decoding the varint of a safe integer gives the integer, whatever
    follows it. *)
Lemma decode_varint (n : Z) (rest : bytes) :
  0 <= n <= 2 ^ 53 -> Varint.decode (Layout.varint n ++ rest) = Return n.
Proof.
  intros Hn. unfold Varint.decode, Layout.varint.
  change 0 with (7 * 0) at 2.
  rewrite decode_loop_groups;
    [f_equal; cbn; lia | lia | apply log2_fuel; lia | lia | lia | lia | cbn; lia].
Qed.

(** ** The length of a varint *)

Lemma length_flagged (gs : list Z) :
  List.length (Layout.flagged gs) = List.length gs.
Proof.
  induction gs as [|g gs IH]; [reflexivity|].
  destruct gs as [|g' gs]; [reflexivity|].
  rewrite flagged_cons by discriminate. cbn [List.length]. rewrite IH. reflexivity.
Qed.

Lemma length_groups (k : nat) :
  forall (fuel : nat) (n : Z),
    (S k <= fuel)%nat -> 0 <= n < 128 ^ Z.of_nat (S k) ->
    (k = 0%nat \/ 128 ^ Z.of_nat k <= n) ->
    List.length (Layout.groups fuel n) = S k.
Proof.
  induction k as [|k IH]; intros fuel n Hf Hn Hlo;
    (destruct fuel as [|fuel]; [lia|]); cbn [Layout.groups].
  - change (128 ^ Z.of_nat 1) with 128 in Hn.
    destruct (n <? 128) eqn:E; [reflexivity | apply Z.ltb_ge in E; lia].
  - destruct Hlo as [Hlo|Hlo]; [lia|].
    assert (Hp : 128 ^ Z.of_nat (S k) = 128 * 128 ^ Z.of_nat k).
    { replace (Z.of_nat (S k)) with (1 + Z.of_nat k) by lia.
      rewrite Z.pow_add_r by lia. reflexivity. }
    assert (Hp' : 128 ^ Z.of_nat (S (S k)) = 128 * 128 ^ Z.of_nat (S k)).
    { replace (Z.of_nat (S (S k))) with (1 + Z.of_nat (S k)) by lia.
      rewrite Z.pow_add_r by lia. reflexivity. }
    assert (Hk : 0 < 128 ^ Z.of_nat k) by (apply Z.pow_pos_nonneg; lia).
    destruct (n <? 128) eqn:E; [apply Z.ltb_lt in E; lia|].
    cbn [List.length]. f_equal. apply IH.
    + lia.
    + split; [apply Z.div_pos; lia|].
      apply Z.div_lt_upper_bound; lia.
    + destruct k as [|k]; [left; reflexivity|right].
      apply Z.div_le_lower_bound; lia.
Qed.

Lemma log2_fuel_enough (k : nat) (n : Z) :
  128 ^ Z.of_nat k <= n -> (S k <= S (Z.to_nat (Z.log2 n)))%nat.
Proof.
  intros Hn.
  assert (Hk : 0 < 128 ^ Z.of_nat k) by (apply Z.pow_pos_nonneg; lia).
  assert (Z.of_nat k <= Z.log2 n); [|lia].
  apply Z.log2_le_pow2; [lia|].
  transitivity (128 ^ Z.of_nat k); [|assumption].
  change 128 with (2 ^ 7). rewrite <- Z.pow_mul_r by lia.
  apply Z.pow_le_mono_r; lia.
Qed.

Lemma len_varint_groups (k : nat) (n : Z) :
  0 <= n < 128 ^ Z.of_nat (S k) ->
  (k = 0%nat \/ 128 ^ Z.of_nat k <= n) ->
  len (Layout.varint n) = Z.of_nat (S k).
Proof.
  intros Hn Hlo. unfold len, Layout.varint.
  rewrite length_map, length_flagged, (length_groups k); [reflexivity| |assumption|assumption].
  destruct Hlo as [->|Hlo]; [lia|]. apply log2_fuel_enough. assumption.
Qed.

(** [encodingLength] is the number of bytes the encoder writes. *)
Lemma encodingLength_len (n : Z) :
  0 <= n <= 2 ^ 53 -> Varint.encodingLength n = len (Layout.varint n).
Proof.
  intros Hn. unfold Varint.encodingLength.
  destruct (n <? 2 ^ 7) eqn:E1.
  { apply Z.ltb_lt in E1. symmetry. apply (len_varint_groups 0); [|left; reflexivity].
    change (128 ^ Z.of_nat 1) with (2 ^ 7). lia. }
  apply Z.ltb_ge in E1.
  destruct (n <? 2 ^ 14) eqn:E2.
  { apply Z.ltb_lt in E2. symmetry. apply (len_varint_groups 1); [|right].
    - change (128 ^ Z.of_nat 2) with (2 ^ 14). lia.
    - change (128 ^ Z.of_nat 1) with (2 ^ 7). lia. }
  apply Z.ltb_ge in E2.
  destruct (n <? 2 ^ 21) eqn:E3.
  { apply Z.ltb_lt in E3. symmetry. apply (len_varint_groups 2); [|right].
    - change (128 ^ Z.of_nat 3) with (2 ^ 21). lia.
    - change (128 ^ Z.of_nat 2) with (2 ^ 14). lia. }
  apply Z.ltb_ge in E3.
  destruct (n <? 2 ^ 28) eqn:E4.
  { apply Z.ltb_lt in E4. symmetry. apply (len_varint_groups 3); [|right].
    - change (128 ^ Z.of_nat 4) with (2 ^ 28). lia.
    - change (128 ^ Z.of_nat 3) with (2 ^ 21). lia. }
  apply Z.ltb_ge in E4.
  destruct (n <? 2 ^ 35) eqn:E5.
  { apply Z.ltb_lt in E5. symmetry. apply (len_varint_groups 4); [|right].
    - change (128 ^ Z.of_nat 5) with (2 ^ 35). lia.
    - change (128 ^ Z.of_nat 4) with (2 ^ 28). lia. }
  apply Z.ltb_ge in E5.
  destruct (n <? 2 ^ 42) eqn:E6.
  { apply Z.ltb_lt in E6. symmetry. apply (len_varint_groups 5); [|right].
    - change (128 ^ Z.of_nat 6) with (2 ^ 42). lia.
    - change (128 ^ Z.of_nat 5) with (2 ^ 35). lia. }
  apply Z.ltb_ge in E6.
  destruct (n <? 2 ^ 49) eqn:E7.
  { apply Z.ltb_lt in E7. symmetry. apply (len_varint_groups 6); [|right].
    - change (128 ^ Z.of_nat 7) with (2 ^ 49). lia.
    - change (128 ^ Z.of_nat 6) with (2 ^ 42). lia. }
  apply Z.ltb_ge in E7.
  destruct (n <? 2 ^ 56) eqn:E8.
  { apply Z.ltb_lt in E8. symmetry. apply (len_varint_groups 7); [|right].
    - change (128 ^ Z.of_nat 8) with (2 ^ 56). lia.
    - change (128 ^ Z.of_nat 7) with (2 ^ 49). lia. }
  apply Z.ltb_ge in E8.
  assert (2 ^ 53 < 2 ^ 56) by (apply Z.pow_lt_mono_r; lia). lia.
Qed.

Lemma encodingLength_pos (n : Z) : 1 <= Varint.encodingLength n <= 10.
Proof.
  unfold Varint.encodingLength.
  repeat match goal with |- context [if ?c then _ else _] => destruct c end; lia.
Qed.

(** ** Extraction *)

(** Side conditions on lengths of concatenations. *)
Ltac len_lia :=
  unfold len, MAX_SAFE_INTEGER in *; rewrite ?length_app in *;
  cbn [List.length] in *; lia.

Lemma double_round_nonneg (x : Z) : 0 <= x -> 0 <= double_round x.
Proof.
  intros Hx. destruct (Z.le_gt_cases x (2 ^ 53)) as [Hle|Hgt].
  - rewrite double_round_exact; assumption.
  - pose proof (double_round_large x Hgt). lia.
Qed.

Lemma decode_loop_nonneg (buf : bytes) :
  forall res shift n,
    0 <= res -> 0 <= shift ->
    Varint.decode_loop buf res shift = Return n -> 0 <= n.
Proof.
  induction buf as [|b buf IH]; intros res shift n Hres Hshift; cbn [Varint.decode_loop].
  - discriminate.
  - destruct (49 <? shift); [discriminate|].
    rewrite decode_term by assumption.
    assert (Hacc : 0 <= js_add res (byte_to_Z b mod 128 * 2 ^ shift)).
    { apply double_round_nonneg.
      pose proof (Z.mod_pos_bound (byte_to_Z b) 128 ltac:(lia)).
      assert (0 <= 2 ^ shift) by (apply Z.pow_nonneg; lia). nia. }
    destruct (Varint.MSB <=? byte_to_Z b).
    + apply IH; lia.
    + intros [= <-]. assumption.
Qed.

Lemma decode_nonneg (buf : bytes) (n : Z) : Varint.decode buf = Return n -> 0 <= n.
Proof. apply decode_loop_nonneg; lia. Qed.

(** What [extractVarintPrefixed] returns once the length [n] is decoded: the
    bytes, at most [n], that follow the [encodingLength n] first ones, and
    what is left after them. *)
Lemma extract_decoded (bs : bytes) (n : Z) :
  len bs <= MAX_SAFE_INTEGER ->
  Varint.decode bs = Return n ->
  extractVarintPrefixed bs
  = Return (firstn (Z.to_nat n) (skipn (Z.to_nat (Varint.encodingLength n)) bs),
            skipn (Z.to_nat (n + Varint.encodingLength n)) bs).
Proof.
  intros Hlen Hdec. unfold extractVarintPrefixed. rewrite Hdec. cbn [bind].
  pose proof (decode_nonneg _ _ Hdec) as Hn.
  pose proof (encodingLength_pos n) as Hk.
  pose proof (len_nonneg bs) as Hl.
  unfold MAX_SAFE_INTEGER in Hlen.
  set (k := Varint.encodingLength n) in *.
  destruct (Z.le_gt_cases (n + k) (2 ^ 53)) as [Hle|Hgt].
  - rewrite js_add_exact by assumption.
    rewrite slice_firstn_skipn, slice_from_skipn by lia.
    replace (n + k - k) with n by lia. reflexivity.
  - pose proof (double_round_large _ Hgt) as Hbig. unfold js_add.
    assert (Hc : 2 ^ 53 = 9007199254740992) by reflexivity.
    rewrite Hc in *. clearbody k.
    set (e := double_round (n + k)) in *.
    assert (0 <= k) by lia. assert (k <= e) by lia.
    rewrite slice_firstn_skipn by lia. 
    rewrite slice_from_skipn by lia. 
    unfold len in *. clearbody e.
    rewrite (firstn_all2 (n := Z.to_nat (e - k))) by (rewrite length_skipn; lia).
    rewrite (firstn_all2 (n := Z.to_nat n)) by (rewrite length_skipn; lia).
    rewrite (skipn_all2 (n := Z.to_nat e)) by lia.
    rewrite (skipn_all2 (n := Z.to_nat (n + k))) by lia.
    reflexivity.
Qed.

Lemma extract_throws (bs : bytes) (e : exn) :
  Varint.decode bs = Throw e -> extractVarintPrefixed bs = Throw e.
Proof. intros Hdec. unfold extractVarintPrefixed. rewrite Hdec. reflexivity. Qed.

(** A prefixed chunk at the front of a buffer comes out whole, and the cursor
    is left on what follows it. *)
Lemma extract_length_prefix (data rest : bytes) :
  len (Layout.length_prefix data ++ rest) <= MAX_SAFE_INTEGER ->
  extractVarintPrefixed (Layout.length_prefix data ++ rest) = Return (data, rest).
Proof.
  intros Hlen.
  pose proof (len_nonneg data) as Hd. pose proof (len_nonneg rest) as Hr.
  pose proof (len_nonneg (Layout.varint (len data))) as Hv.
  assert (Hsafe : 0 <= len data <= 2 ^ 53).
  { unfold Layout.length_prefix, MAX_SAFE_INTEGER in Hlen.
    rewrite !len_app in Hlen. lia. }
  rewrite (extract_decoded _ (len data)).
  - rewrite encodingLength_len by assumption.
    unfold Layout.length_prefix. rewrite <- !app_assoc.
    replace (Z.to_nat (len data + len (Layout.varint (len data))))
      with (List.length (Layout.varint (len data)) + List.length data)%nat
      by (unfold len; lia).
    replace (Z.to_nat (len (Layout.varint (len data))))
      with (List.length (Layout.varint (len data))) by (unfold len; lia).
    replace (Z.to_nat (len data)) with (List.length data) by (unfold len; lia).
    rewrite skipn_app, skipn_all, Nat.sub_diag, skipn_O. cbn [app].
    rewrite firstn_app, firstn_all, Nat.sub_diag, firstn_O, app_nil_r.
    rewrite skipn_app, skipn_all2 by lia. cbn [app].
    replace (List.length (Layout.varint (len data)) + List.length data
             - List.length (Layout.varint (len data)))%nat
      with (List.length data) by lia.
    rewrite skipn_app, skipn_all, Nat.sub_diag, skipn_O. reflexivity.
  - assumption.
  - unfold Layout.length_prefix. rewrite <- app_assoc.
    apply decode_varint. assumption.
Qed.

Lemma len_length_prefix (data : bytes) : len data <= len (Layout.length_prefix data).
Proof.
  unfold Layout.length_prefix. rewrite len_app.
  pose proof (len_nonneg (Layout.varint (len data))). lia.
Qed.

(** ** The varint of the specification denotes the length *)

Lemma groups_denote (fuel : nat) :
  forall n : Z,
    (1 <= fuel)%nat -> 0 <= n < 2 ^ Z.of_nat fuel ->
    let prefix := map byte_of_Z (Layout.flagged (Layout.groups fuel n)) in
    Layout.well_flagged prefix = true /\ Layout.value_of prefix = n.
Proof.
  induction fuel as [|fuel IH]; intros n Hf Hn; [lia|].
  cbn zeta. cbn [Layout.groups].
  destruct (n <? 128) eqn:E.
  - apply Z.ltb_lt in E.
    cbn [Layout.flagged map Layout.well_flagged Layout.value_of].
    rewrite byte_to_of_Z by lia. rewrite Z.mod_small by lia.
    split; [apply Z.ltb_lt; assumption | lia].
  - apply Z.ltb_ge in E.
    destruct (fuel_step fuel n) as (Hf' & Hq & _); [lia|].
    destruct (IH (n / 128) Hf' Hq) as [Hflag Hval].
    rewrite flagged_cons by (apply groups_nonempty; assumption).
    pose proof (Z.mod_pos_bound n 128 ltac:(lia)) as Hmod.
    cbn [map Layout.value_of]. rewrite Hval.
    rewrite byte_to_of_Z by lia.
    split.
    + remember (map byte_of_Z (Layout.flagged (Layout.groups fuel (n / 128)))) as tail eqn:Et.
      destruct tail as [|b tail]; [discriminate Hflag|].
      change (Layout.well_flagged (byte_of_Z (n mod 128 + 128) :: b :: tail))
        with ((128 <=? byte_to_Z (byte_of_Z (n mod 128 + 128)))
              && Layout.well_flagged (b :: tail)).
      rewrite Hflag, byte_to_of_Z by lia.
      rewrite andb_true_r. apply Z.leb_le. lia.
    + replace (n mod 128 + 128) with (n mod 128 + 1 * 128) by lia.
      rewrite Z.mod_add, Z.mod_mod by lia.
      rewrite (Z.div_mod n 128) at 3 by lia. lia.
Qed.

Lemma varint_denotes (chunk : bytes) :
  Layout.well_flagged (Layout.varint (len chunk)) = true
  /\ Layout.value_of (Layout.varint (len chunk)) = len chunk.
Proof.
  unfold Layout.varint. apply groups_denote; [lia|].
  apply log2_fuel, len_nonneg.
Qed.

(** ** The header *)

Section Header.
Context `{TextCodec}.

Lemma serialize_header (m : AADMeta.t) :
  AADMeta.serialize m
  = Layout.header (AADMeta.version m) (AADMeta.type m) (AADMeta.nonce m).
Proof.
  unfold AADMeta.serialize, Layout.header, AADMeta.METADATA_VERSION.
  rewrite concatUint8Arrays_concat, !varintPrefixed_length_prefix.
  cbn [List.concat]. rewrite app_nil_r. reflexivity.
Qed.

(** Four prefixed fields, the first of which decodes to the supported
    format version, and nothing after them. *)
Lemma deserialize_fields (f0 f1 f2 f3 : bytes) :
  utf8_decode f0 = AADMeta.METADATA_VERSION ->
  len (Layout.length_prefix f0 ++ Layout.length_prefix f1
         ++ Layout.length_prefix f2 ++ Layout.length_prefix f3)
    <= MAX_SAFE_INTEGER ->
  AADMeta.deserialize
    (Layout.length_prefix f0 ++ Layout.length_prefix f1
       ++ Layout.length_prefix f2 ++ Layout.length_prefix f3)
  = Return (Some (AADMeta.Build (utf8_decode f1) (utf8_decode f2) f3)).
Proof.
  intros Hv Hlen. unfold AADMeta.deserialize.
  rewrite extract_length_prefix by assumption. cbn [bind].
  rewrite Hv, String.eqb_refl. cbn [negb].
  rewrite extract_length_prefix by len_lia.
  cbn [bind].
  rewrite extract_length_prefix by len_lia.
  cbn [bind].
  rewrite <- (app_nil_r (Layout.length_prefix f3)).
  rewrite extract_length_prefix by len_lia.
  reflexivity.
Qed.

(** A serialised header followed by any content unpacks into its fields,
    its own bytes and the content. *)
Lemma unpack_serialized (m : AADMeta.t) (content : bytes) :
  text_ok AADMeta.METADATA_VERSION ->
  text_ok (AADMeta.version m) ->
  text_ok (AADMeta.type m) ->
  len (AADMeta.serialize m ++ content) <= MAX_SAFE_INTEGER ->
  AADMeta.unpack (AADMeta.serialize m ++ content)
  = Return (Some (AADMeta.Unpacked (Some m) (AADMeta.serialize m) content)).
Proof.
  intros Hmv Hver Hty Hlen. unfold text_ok in *.
  rewrite serialize_header in *. unfold Layout.header in *.
  change "0.1.0" with AADMeta.METADATA_VERSION in *.
  set (inner := Layout.length_prefix (utf8_encode AADMeta.METADATA_VERSION) ++ _) in *.
  assert (Hinner : len inner <= MAX_SAFE_INTEGER).
  { pose proof (len_length_prefix inner). len_lia. }
  unfold AADMeta.unpack.
  rewrite extract_length_prefix by assumption. cbn [bind].
  rewrite varintPrefixed_length_prefix.
  rewrite slice_from_skipn by apply len_nonneg.
  replace (Z.to_nat (len (Layout.length_prefix inner)))
    with (List.length (Layout.length_prefix inner)) by (unfold len; lia).
  rewrite skipn_app, skipn_all, Nat.sub_diag, skipn_O. cbn [app].
  unfold inner at 1. rewrite deserialize_fields by assumption. cbn [bind].
  unfold inner at 1. rewrite extract_length_prefix by assumption. cbn [bind].
  rewrite Hmv, String.eqb_refl. cbn [negb].
  rewrite Hver, Hty. destruct m; reflexivity.
Qed.

End Header.

Section HeaderParsing.
Context `{TextCodec}.

(** [unpack] has two outcomes only: a record with its metadata, or an
    exception. The [null] that its callers test for never comes. *)
Lemma unpack_returns_metadata (data : bytes) (r : option AADMeta.unpacked) :
  AADMeta.unpack data = Return r ->
  exists m raw content, r = Some (AADMeta.Unpacked (Some m) raw content).
Proof.
  unfold AADMeta.unpack.
  destruct (extractVarintPrefixed data) as [[header rest]|e]; [|discriminate].
  cbn [bind]. unfold AADMeta.deserialize.
  destruct (extractVarintPrefixed header) as [[field bs]|e]; [|discriminate].
  cbn [bind].
  destruct (negb (utf8_decode field =? AADMeta.METADATA_VERSION)%string) eqn:E.
  - cbn [bind]. discriminate.
  - destruct (extractVarintPrefixed bs) as [[f1 bs1]|e]; [|discriminate]. cbn [bind].
    destruct (extractVarintPrefixed bs1) as [[f2 bs2]|e]; [|discriminate]. cbn [bind].
    destruct (extractVarintPrefixed bs2) as [[f3 bs3]|e]; [|discriminate]. cbn [bind].
    destruct (negb (List.length bs3 =? 0)%nat); [discriminate|]. cbn [bind].
    intros [= <-]. eauto.
Qed.

(** On a foreign format version, [AADMeta.deserialize] itself answers
    [null]; it is [unpack] that turns the case into an exception. *)
Lemma deserialize_foreign_version (header field fields : bytes) :
  extractVarintPrefixed header = Return (field, fields) ->
  utf8_decode field <> AADMeta.METADATA_VERSION ->
  AADMeta.deserialize header = Return None.
Proof.
  intros Hheader Hversion. apply String.eqb_neq in Hversion.
  unfold AADMeta.deserialize. rewrite Hheader. cbn [bind].
  rewrite Hversion. reflexivity.
Qed.

(** C4: when the format-version field of a header does not decode to
    "0.1.0", [AADMeta.unpack] throws "unrecognized metadata version",
    whatever the rest of the header and the content after it are. *)
Theorem unpack_rejects_format_version
    (data header rest field fields : bytes) :
  extractVarintPrefixed data = Return (header, rest) ->
  extractVarintPrefixed header = Return (field, fields) ->
  utf8_decode field <> AADMeta.METADATA_VERSION ->
  AADMeta.unpack data = Throw (Error "unrecognized metadata version").
Proof.
  intros Hdata Hheader Hversion.
  apply String.eqb_neq in Hversion.
  unfold AADMeta.unpack. rewrite Hdata. cbn [bind].
  unfold AADMeta.deserialize. rewrite Hheader. cbn [bind].
  rewrite Hversion. cbn [negb bind]. reflexivity.
Qed.

(** C5: the serialised header is the length-prefixed concatenation of the
    four length-prefixed fields, the first being the text "0.1.0", and each
    prefix is the base-128 varint of the length of its chunk: the
    continuation flag is set on every byte but the last, and the 7-bit
    groups, least significant first, spell the length. *)
Theorem serialize_wire_layout (m : AADMeta.t) :
  AADMeta.serialize m
  = Layout.length_prefix
      (Layout.length_prefix (utf8_encode "0.1.0")
         ++ Layout.length_prefix (utf8_encode (AADMeta.version m))
         ++ Layout.length_prefix (utf8_encode (AADMeta.type m))
         ++ Layout.length_prefix (AADMeta.nonce m))
  /\ forall chunk : bytes,
      Layout.length_prefix chunk = Layout.varint (len chunk) ++ chunk
      /\ Layout.well_flagged (Layout.varint (len chunk)) = true
      /\ Layout.value_of (Layout.varint (len chunk)) = len chunk.
Proof.
  split.
  - apply serialize_header.
  - intros chunk. split; [reflexivity | apply varint_denotes].
Qed.

(** C3 (the defect): when the header does not parse, [inspect] lets the
    exception of [AADMeta.unpack] through; it does not return [null]. *)
Theorem inspect_header_failure_raises (wire : TypedBytes.t) (e : exn) :
  AADMeta.unpack (TypedBytes.buf wire) = Throw e ->
  TypedBytes.inspect wire = Throw e.
Proof.
  intros Hunpack. unfold TypedBytes.inspect. rewrite Hunpack. reflexivity.
Qed.

(** [inspect] never answers [null]. *)
Lemma inspect_never_null (wire : TypedBytes.t) :
  TypedBytes.inspect wire <> Return None.
Proof.
  unfold TypedBytes.inspect.
  destruct (AADMeta.unpack (TypedBytes.buf wire)) as [r|e] eqn:E; [|discriminate].
  apply unpack_returns_metadata in E. destruct E as (m & raw & content & ->).
  cbn. discriminate.
Qed.

End HeaderParsing.

(** C7 (as stated, refuted): the varint [5] announces five bytes and two
    remain; the call returns those two and does not fail. *)
Lemma extract_short_chunk_returns :
  ~ (forall (bs : bytes) (n : Z),
        Varint.decode bs = Return n ->
        len bs - Varint.encodingLength n < n ->
        raises (extractVarintPrefixed bs)).
Proof.
  intros Hclaim.
  destruct (Hclaim [x05; x01; x02] 5) as [e He].
  - reflexivity.
  - reflexivity.
  - discriminate He.
Qed.

(** C7 (amended): the call fails exactly when the varint cannot be decoded.
    Otherwise, with [n] the decoded length and [k] the length of its
    encoding, the chunk is made of the bytes that follow the first [k], up to
    [n] of them, and the cursor keeps what comes after; when fewer than [n]
    bytes follow, the chunk is all of them and the cursor is left empty. *)
Theorem extract_takes_what_remains (bs : bytes) :
  len bs <= MAX_SAFE_INTEGER ->
  match Varint.decode bs with
  | Throw e => extractVarintPrefixed bs = Throw e
  | Return n =>
      let k := Varint.encodingLength n in
      extractVarintPrefixed bs
      = Return (firstn (Z.to_nat n) (skipn (Z.to_nat k) bs),
                skipn (Z.to_nat (n + k)) bs)
      /\ (len bs - k < n ->
          extractVarintPrefixed bs = Return (skipn (Z.to_nat k) bs, []))
  end.
Proof.
  intros Hlen.
  destruct (Varint.decode bs) as [n|e] eqn:Hdec.
  - cbn zeta. pose proof (extract_decoded bs n Hlen Hdec) as Hex.
    split; [assumption|].
    intros Hshort. rewrite Hex.
    pose proof (decode_nonneg _ _ Hdec). pose proof (encodingLength_pos n).
    unfold len in *.
    rewrite firstn_all2 by (rewrite length_skipn; lia).
    rewrite (skipn_all2 (n := Z.to_nat (n + Varint.encodingLength n))) by lia.
    reflexivity.
  - apply extract_throws. assumption.
Qed.

Section Envelope.
Context `{TextCodec} `{Cipher}.

(** The bytes [encrypt] produces: the serialised header, then what the
    cipher sealed. *)
Lemma encrypt_sealed {T : Type} (key : Key) (obj : Datagram.t T)
    (nonce sealed : bytes) :
  let aad := AADMeta.serialize
               (AADMeta.Build (Datagram.version obj) (Datagram.type obj) nonce) in
  seal key nonce (Datagram.serialize obj) aad = Return sealed ->
  TaggedSecretBox.encrypt key obj nonce
  = Return (TypedBytes.Build (aad ++ sealed)).
Proof.
  cbn zeta. intros Hseal. unfold TaggedSecretBox.encrypt.
  rewrite Hseal. cbn [bind]. rewrite concatUint8Arrays_concat.
  cbn [List.concat]. rewrite app_nil_r. reflexivity.
Qed.

(** [decrypt] on such bytes: the header parses, the cipher opens the
    content, and the outcome is that of the class's [deserialize], kept only
    under the tag of the header. *)
Lemma decrypt_sealed {T : Type} (key : Key) (cls : DatagramConstructor.t T)
    (m : AADMeta.t) (sealed plaintext : bytes) :
  text_ok AADMeta.METADATA_VERSION ->
  text_ok (AADMeta.version m) ->
  text_ok (AADMeta.type m) ->
  len (AADMeta.serialize m ++ sealed) <= MAX_SAFE_INTEGER ->
  open key (AADMeta.nonce m) sealed (AADMeta.serialize m)
    = Return (Some plaintext) ->
  TaggedSecretBox.decrypt key cls (TypedBytes.Build (AADMeta.serialize m ++ sealed))
  = candidate <- DatagramConstructor.deserialize cls plaintext (AADMeta.version m) ;;
    if (DatagramConstructor.type cls =? AADMeta.type m)%string
    then Return candidate else Return None.
Proof.
  intros Hmv Hver Hty Hlen Hopen. unfold TaggedSecretBox.decrypt.
  cbn [TypedBytes.buf]. rewrite unpack_serialized by assumption.
  cbn [bind AADMeta.metadata AADMeta.content AADMeta.rawMetadata].
  rewrite Hopen. reflexivity.
Qed.

(** The header of an envelope can be read back without the key. *)
Lemma inspect_encrypted {T : Type} (key : Key) (obj : Datagram.t T)
    (nonce : bytes) (wire : TypedBytes.t) :
  text_ok AADMeta.METADATA_VERSION ->
  text_ok (Datagram.version obj) ->
  text_ok (Datagram.type obj) ->
  TaggedSecretBox.encrypt key obj nonce = Return wire ->
  len (TypedBytes.buf wire) <= MAX_SAFE_INTEGER ->
  TypedBytes.inspect wire
  = Return (Some (AADMeta.Build (Datagram.version obj) (Datagram.type obj) nonce)).
Proof.
  intros Hmv Hver Hty Henc Hlen.
  unfold TaggedSecretBox.encrypt in Henc.
  destruct (seal key nonce (Datagram.serialize obj) _) as [sealed|e] eqn:Hseal;
    [|discriminate].
  cbn [bind] in Henc. injection Henc as <-.
  rewrite concatUint8Arrays_concat in *. cbn [List.concat TypedBytes.buf] in *.
  rewrite app_nil_r in *.
  unfold TypedBytes.inspect. cbn [TypedBytes.buf].
  rewrite unpack_serialized by assumption. reflexivity.
Qed.

(** The envelope is transparent: decrypting, with a class of the same tag,
    what [encrypt] made of a datagram is calling the class's [deserialize] on
    the datagram's serialised bytes and version. *)
Lemma decrypt_encrypt_transparent {A B : Type} (key : Key)
    (obj : Datagram.t A) (cls : DatagramConstructor.t B) (nonce sealed : bytes) :
  DatagramConstructor.type cls = Datagram.type obj ->
  text_ok AADMeta.METADATA_VERSION ->
  text_ok (Datagram.version obj) ->
  text_ok (Datagram.type obj) ->
  seal key nonce (Datagram.serialize obj)
    (AADMeta.serialize (AADMeta.Build (Datagram.version obj) (Datagram.type obj) nonce))
    = Return sealed ->
  open key nonce sealed
    (AADMeta.serialize (AADMeta.Build (Datagram.version obj) (Datagram.type obj) nonce))
    = Return (Some (Datagram.serialize obj)) ->
  len (AADMeta.serialize
         (AADMeta.Build (Datagram.version obj) (Datagram.type obj) nonce) ++ sealed)
    <= MAX_SAFE_INTEGER ->
  exists wire : TypedBytes.t,
    TaggedSecretBox.encrypt key obj nonce = Return wire
    /\ TaggedSecretBox.decrypt key cls wire
       = DatagramConstructor.deserialize cls (Datagram.serialize obj)
           (Datagram.version obj).
Proof.
  intros Htag Hmv Hver Hty Hseal Hopen Hlen.
  eexists. split; [apply encrypt_sealed; eassumption|].
  rewrite (decrypt_sealed key cls _ sealed (Datagram.serialize obj));
    try assumption.
  cbn [AADMeta.version AADMeta.type].
  rewrite Htag, String.eqb_refl.
  destruct (DatagramConstructor.deserialize cls _ _); reflexivity.
Qed.

(** C1 (amended): a value that keeps the Datagram contract, and whose tag
    and version the text codec gives back, comes back from
    [decrypt (type_of v) (encrypt v)]: the result is not [null], it is equal
    to [v] under the equality of its class, and it has the tag and the
    version of [v]. The cipher is asked to open what it sealed, the text
    codec to give back the format version too, and the envelope to be a
    [Uint8Array]. *)
Theorem encrypt_decrypt_roundtrip {T : Type} `{DatagramClass T}
    (key : Key) (v : T) (nonce sealed : bytes) :
  keeps_contract v ->
  text_ok AADMeta.METADATA_VERSION ->
  text_ok (version_of v) ->
  text_ok tag ->
  seal key nonce (serialize_of v)
    (AADMeta.serialize (AADMeta.Build (version_of v) tag nonce)) = Return sealed ->
  open key nonce sealed
    (AADMeta.serialize (AADMeta.Build (version_of v) tag nonce))
    = Return (Some (serialize_of v)) ->
  len (AADMeta.serialize (AADMeta.Build (version_of v) tag nonce) ++ sealed)
    <= MAX_SAFE_INTEGER ->
  exists (wire : TypedBytes.t) (r : T),
    TaggedSecretBox.encrypt key (datagram_of v) nonce = Return wire
    /\ TaggedSecretBox.decrypt key (type_of T) wire = Return (Some r)
    /\ equal r v
    /\ Datagram.type (datagram_of r) = Datagram.type (datagram_of v)
    /\ Datagram.version (datagram_of r) = Datagram.version (datagram_of v).
Proof.
  intros (r & Hdes & Heq & Hrv) Hmv Hver Hty Hseal Hopen Hlen.
  destruct (decrypt_encrypt_transparent key (datagram_of v) (type_of T)
              nonce sealed) as (wire & Henc & Hdec); try assumption; try reflexivity.
  exists wire, r.
  split; [assumption|].
  split; [rewrite Hdec; exact Hdes|].
  split; [assumption|]. split; [reflexivity | assumption].
Qed.

(** C2 (the defect): when the header does not parse, [decrypt] lets the
    exception of [AADMeta.unpack] through; it does not return [null]. *)
Theorem decrypt_header_failure_raises {T : Type} (key : Key)
    (cls : DatagramConstructor.t T) (wire : TypedBytes.t) (e : exn) :
  AADMeta.unpack (TypedBytes.buf wire) = Throw e ->
  TaggedSecretBox.decrypt key cls wire = Throw e.
Proof.
  intros Hunpack. unfold TaggedSecretBox.decrypt. rewrite Hunpack. reflexivity.
Qed.


(** C10: [encrypt] reads a datagram through its tag, its version and its
    serialised bytes only; two datagrams that agree on the three give, under
    one key and one nonce, the same outcome, byte for byte. *)
Theorem encrypt_deterministic {A B : Type} (key : Key)
    (obj1 : Datagram.t A) (obj2 : Datagram.t B) (nonce : bytes) :
  Datagram.type obj1 = Datagram.type obj2 ->
  Datagram.version obj1 = Datagram.version obj2 ->
  Datagram.serialize obj1 = Datagram.serialize obj2 ->
  TaggedSecretBox.encrypt key obj1 nonce = TaggedSecretBox.encrypt key obj2 nonce.
Proof.
  intros Hty Hver Hser. unfold TaggedSecretBox.encrypt.
  rewrite Hty, Hver, Hser. reflexivity.
Qed.

End Envelope.

Section WrapperFacts.
Context `{TextCodec} `{Semver} `{Json}.

(** What [wrap] returns, when it returns. *)
Lemma wrap_returned (f : Wrapper.factory) (data : value) (version : string)
    (d : Datagram.t value) :
  Wrapper.wrap f data version = Return d ->
  Range_test (Wrapper.constraint f) version = true
  /\ d = Datagram.Build (Wrapper.typeName f) version
           (Wrapper.serialize (Wrapper.wrapped f data version))
           (Wrapper.deserialize f).
Proof.
  unfold Wrapper.wrap, Wrapper.new.
  destruct (Range_test (Wrapper.constraint f) version); cbn [negb];
    [intros [= <-]; split; reflexivity | discriminate].
Qed.

(** [deserialize] once [JSON.parse] has returned. *)
Lemma deserialize_parsed (f : Wrapper.factory) (data : bytes) (version : string)
    (ret : value) :
  JSON_parse (utf8_decode data) = Return ret ->
  Wrapper.deserialize f data version
  = Return (if loosely_null ret
               || strict_neq_string (member ret "type") (Wrapper.typeName f)
               || negb (Range_test (Wrapper.constraint f) version)
            then None
            else nullable (member ret "data")).
Proof.
  intros Hparse. unfold Wrapper.deserialize. rewrite Hparse. cbn [bind].
  destruct ret; cbn [loosely_null get_prop member bind orb]; try reflexivity;
    destruct (strict_neq_string _ _); cbn [orb]; try reflexivity;
    destruct (Range_test _ _); reflexivity.
Qed.

(** C8: [wrap] throws exactly when the version fails the constraint of the
    factory; the instance it returns otherwise reports the tag of the
    factory and the version it was given. *)
Theorem wrap_version_gate (f : Wrapper.factory) (data : value) (version : string) :
  (raises (Wrapper.wrap f data version)
   <-> Range_test (Wrapper.constraint f) version = false)
  /\ forall d : Datagram.t value,
      Wrapper.wrap f data version = Return d ->
      Datagram.type d = Wrapper.typeName f /\ Datagram.version d = version.
Proof.
  split.
  - unfold Wrapper.wrap, Wrapper.new, raises.
    destruct (Range_test (Wrapper.constraint f) version); cbn [negb].
    + split; [intros [e He]; discriminate He | discriminate].
    + split; [reflexivity | intros _; eauto].
  - intros d Hd. apply wrap_returned in Hd. destruct Hd as [_ ->].
    split; reflexivity.
Qed.


(** C9 (amended): [deserialize] throws exactly when the bytes are not a
    JSON text. On a JSON text it returns [null] when the decoded value is
    [null], when its [type] member is not the tag of the factory, or when
    the version fails the constraint, and the [data] member of the decoded
    value otherwise. *)
Theorem wrapper_deserialize_cases (f : Wrapper.factory) (data : bytes)
    (version : string) :
  match JSON_parse (utf8_decode data) with
  | Throw e => Wrapper.deserialize f data version = Throw e
  | Return ret =>
      Wrapper.deserialize f data version
      = Return (if loosely_null ret
                   || strict_neq_string (member ret "type") (Wrapper.typeName f)
                   || negb (Range_test (Wrapper.constraint f) version)
                then None
                else nullable (member ret "data"))
  end.
Proof.
  destruct (JSON_parse (utf8_decode data)) as [ret|e] eqn:Hparse.
  - apply deserialize_parsed. assumption.
  - unfold Wrapper.deserialize. rewrite Hparse. reflexivity.
Qed.

End WrapperFacts.

Section WrappedEnvelope.
Context `{TextCodec} `{Semver} `{Json} `{Cipher}.

(** X18: the test [datagram wrapper]: what comes back from an envelope made
    of a wrapped value is the value itself, without its wrapper; a wrapped
    [null] comes back as [null]. The generic codec is asked to decode what it
    encoded, the text codec to give back the type name of the factory and
    the version, and the cipher to open what it sealed. *)
Lemma wrapper_roundtrip (f : Wrapper.factory) (data : value) (version : string)
    (d : Datagram.t value) (key : Key) (nonce sealed : bytes) :
  Wrapper.wrap f data version = Return d ->
  JSON_parse (utf8_decode (Datagram.serialize d))
    = Return (Wrapper.wrapped f data version) ->
  text_ok AADMeta.METADATA_VERSION ->
  text_ok version ->
  text_ok (Wrapper.typeName f) ->
  seal key nonce (Datagram.serialize d)
    (AADMeta.serialize (AADMeta.Build version (Wrapper.typeName f) nonce))
    = Return sealed ->
  open key nonce sealed
    (AADMeta.serialize (AADMeta.Build version (Wrapper.typeName f) nonce))
    = Return (Some (Datagram.serialize d)) ->
  len (AADMeta.serialize (AADMeta.Build version (Wrapper.typeName f) nonce) ++ sealed)
    <= MAX_SAFE_INTEGER ->
  exists wire : TypedBytes.t,
    TaggedSecretBox.encrypt key d nonce = Return wire
    /\ TaggedSecretBox.decrypt key (Wrapper.class f) wire = Return (nullable data).
Proof.
  intros Hwrap Hjson Hmv Hver Hty Hseal Hopen Hlen.
  apply wrap_returned in Hwrap. destruct Hwrap as [Htest ->].
  cbn [Datagram.serialize] in *.
  destruct (decrypt_encrypt_transparent key
              (Datagram.Build (Wrapper.typeName f) version
                 (Wrapper.serialize (Wrapper.wrapped f data version))
                 (Wrapper.deserialize f))
              (Wrapper.class f) nonce sealed)
    as (wire & Henc & Hdec); try assumption; [reflexivity|].
  exists wire. split; [assumption|].
  rewrite Hdec.
  cbn [Wrapper.class DatagramConstructor.deserialize Datagram.serialize
         Datagram.version].
  rewrite (deserialize_parsed f _ version _ Hjson), Htest.
  cbn [Wrapper.wrapped loosely_null member lookup_prop String.eqb Ascii.eqb
         Bool.eqb strict_neq_string orb negb].
  rewrite String.eqb_refl. reflexivity.
Qed.

End WrappedEnvelope.

(** ** The properties at work on concrete buffers *)

(** The scenario of the specification, through [encrypt], [decrypt] and
    [inspect]. *)
Lemma encrypt_decrypt_roundtrip_witness :
  exists (wire : TypedBytes.t) (r : Example.t),
    @TaggedSecretBox.encrypt byte_codec clear_cipher Example.t zero_key
      (@datagram_of Example.t class_x payload_5) nonce_12 = Return wire
    /\ @TaggedSecretBox.decrypt byte_codec clear_cipher Example.t zero_key
         (@type_of Example.t class_x) wire = Return (Some r)
    /\ @equal Example.t class_x r payload_5
    /\ Datagram.type (@datagram_of Example.t class_x r)
       = Datagram.type (@datagram_of Example.t class_x payload_5)
    /\ Datagram.version (@datagram_of Example.t class_x r)
       = Datagram.version (@datagram_of Example.t class_x payload_5).
Proof.
  apply (@encrypt_decrypt_roundtrip byte_codec clear_cipher Example.t class_x
           zero_key payload_5 nonce_12 [x01; x02; x03; x04; x05]).
  - exists payload_5. split; [reflexivity | split; reflexivity].
  - reflexivity.
  - reflexivity.
  - reflexivity.
  - reflexivity.
  - reflexivity.
  - vm_compute. discriminate.
Defined.

Lemma inspect_scenario :
  exists wire : TypedBytes.t,
    @TaggedSecretBox.encrypt byte_codec clear_cipher Example.t zero_key
      (@datagram_of Example.t class_x payload_5) nonce_12 = Return wire
    /\ @TypedBytes.inspect byte_codec wire
       = Return (Some (AADMeta.Build "0.1.0" "x" nonce_12)).
Proof. eexists. split; reflexivity. Qed.

Lemma decrypt_header_failure_raises_witness :
  @TaggedSecretBox.decrypt byte_codec clear_cipher Example.t zero_key
    (@type_of Example.t class_x) (TypedBytes.Build (header_9_9_9 ++ [x01; x02; x03]))
  = Throw (Error "unrecognized metadata version").
Proof.
  apply (@decrypt_header_failure_raises byte_codec clear_cipher).
  vm_compute. reflexivity.
Defined.

(** The three kinds of header failure, each through [decrypt]. *)
Lemma decrypt_raises_examples :
  @TaggedSecretBox.decrypt byte_codec clear_cipher Example.t zero_key
    (@type_of Example.t class_x) (TypedBytes.Build [x80])
  = Throw (RangeError "Could not decode varint")
  /\ @TaggedSecretBox.decrypt byte_codec clear_cipher Example.t zero_key
       (@type_of Example.t class_x) (TypedBytes.Build header_9_9_9)
     = Throw (Error "unrecognized metadata version")
  /\ @TaggedSecretBox.decrypt byte_codec clear_cipher Example.t zero_key
       (@type_of Example.t class_x) (TypedBytes.Build header_trailing)
     = Throw (Error "unexpected additional content in header").
Proof. repeat split; vm_compute; reflexivity. Qed.

Lemma inspect_header_failure_raises_witness :
  @TypedBytes.inspect byte_codec (TypedBytes.Build hello)
  = Throw (Error "unrecognized metadata version").
Proof.
  apply (@inspect_header_failure_raises byte_codec).
  vm_compute. reflexivity.
Defined.

Lemma inspect_raises_examples :
  @TypedBytes.inspect byte_codec (TypedBytes.Build [])
  = Throw (RangeError "Could not decode varint")
  /\ @TypedBytes.inspect byte_codec (TypedBytes.Build header_9_9_9)
     = Throw (Error "unrecognized metadata version")
  /\ @TypedBytes.inspect byte_codec (TypedBytes.Build header_trailing)
     = Throw (Error "unexpected additional content in header").
Proof. repeat split; vm_compute; reflexivity. Qed.

Lemma unpack_rejects_format_version_witness :
  @AADMeta.unpack byte_codec (header_9_9_9 ++ [x01; x02; x03])
  = Throw (Error "unrecognized metadata version").
Proof.
  apply (@unpack_rejects_format_version byte_codec
           (header_9_9_9 ++ [x01; x02; x03])
           (skipn 1 header_9_9_9) [x01; x02; x03]
           (list_byte_of_string "9.9.9")
           (skipn 7 header_9_9_9)).
  - vm_compute. reflexivity.
  - vm_compute. reflexivity.
  - vm_compute. discriminate.
Defined.



(** C1 (as stated, refuted): an [Example] whose tag starts with a
    byte-order mark keeps the contract, and its envelope decrypts to [null]:
    the decoder drops the mark, and the tag of the class is no longer the tag
    read from the header. *)
Lemma roundtrip_bom_tag_null :
  @keeps_contract Example.t class_bom_x payload_5
  /\ exists wire : TypedBytes.t,
       @TaggedSecretBox.encrypt bom_codec clear_cipher Example.t zero_key
         (@datagram_of Example.t class_bom_x payload_5) nonce_12 = Return wire
       /\ @TaggedSecretBox.decrypt bom_codec clear_cipher Example.t zero_key
            (@type_of Example.t class_bom_x) wire = Return None.
Proof.
  split.
  - exists payload_5. split; [reflexivity | split; reflexivity].
  - exists (TypedBytes.Build
              (@AADMeta.serialize bom_codec (AADMeta.Build "0.1.0" bom_x nonce_12)
                 ++ [x01; x02; x03; x04; x05])).
    split; vm_compute; reflexivity.
Qed.

Lemma extract_takes_what_remains_witness :
  extractVarintPrefixed [x05; x01; x02] = Return ([x01; x02], []).
Proof.
  pose proof (extract_takes_what_remains [x05; x01; x02]) as Hex.
  change (Varint.decode [x05; x01; x02]) with (Return (A := Z) 5) in Hex.
  cbn zeta in Hex.
  destruct Hex as [_ Hshort].
  - vm_compute. discriminate.
  - apply Hshort. vm_compute. reflexivity.
Defined.

Lemma encrypt_deterministic_witness :
  @TaggedSecretBox.encrypt byte_codec clear_cipher Example.t zero_key
    (@datagram_of Example.t class_x payload_5) nonce_12
  = @TaggedSecretBox.encrypt byte_codec clear_cipher unit zero_key
      (Datagram.Build "x" "0.1.0" [x01; x02; x03; x04; x05]
         (fun _ _ => Return None)) nonce_12.
Proof.
  apply (@encrypt_deterministic byte_codec clear_cipher); reflexivity.
Defined.

(** C9 (as stated, refuted): on the empty buffer, which is no JSON text,
    [deserialize] throws the [SyntaxError] of [JSON.parse]. *)
Lemma wrapper_deserialize_raises :
  @Wrapper.deserialize byte_codec range_0_1_x json_null_only Foo [] "0.1.0"
  = Throw (SyntaxError "Unexpected end of JSON input").
Proof. reflexivity. Qed.

(** The version gate of [Wrapper('foo', '0.1.*')]. *)
Lemma wrap_0_1_x_examples (codec : TextCodec) (json : Json) (data : value) :
  @Wrapper.make range_0_1_x "foo" (inl "0.1.*") = Return Foo
  /\ returns (@Wrapper.wrap codec range_0_1_x json Foo data "0.1.0")
  /\ returns (@Wrapper.wrap codec range_0_1_x json Foo data "0.1.1")
  /\ returns (@Wrapper.wrap codec range_0_1_x json Foo data "0.1.9")
  /\ raises (@Wrapper.wrap codec range_0_1_x json Foo data "0.2.0").
Proof.
  unfold returns, raises.
  split; [reflexivity|].
  split; [eexists; reflexivity|].
  split; [eexists; reflexivity|].
  split; [eexists; reflexivity|].
  eexists; reflexivity.
Qed.

(** * Further properties of the framing functions *)

(** X1: [concatUint8Arrays] returns its inputs one after the other, in
    order, whatever their number and their lengths, a length of zero
    included; the length of the result is the sum of theirs. *)
Theorem concat_in_order (u8s : list bytes) :
  concatUint8Arrays u8s = List.concat u8s
  /\ len (concatUint8Arrays u8s) = fold_right (fun elem acc => len elem + acc) 0 u8s.
Proof.
  rewrite concatUint8Arrays_concat. split; [reflexivity|].
  induction u8s as [|elem u8s IH]; [reflexivity|].
  cbn [List.concat fold_right]. rewrite len_app, IH. reflexivity.
Qed.

(** X2: what [varintPrefixed] wrote at the front of a buffer,
    [extractVarintPrefixed] reads back: the chunk is the data, and the cursor
    is left on what followed. *)
Theorem extract_varintPrefixed_roundtrip (data rest : bytes) :
  len (varintPrefixed data ++ rest) <= MAX_SAFE_INTEGER ->
  extractVarintPrefixed (varintPrefixed data ++ rest) = Return (data, rest).
Proof.
  rewrite varintPrefixed_length_prefix. apply extract_length_prefix.
Qed.

(** The decoder refuses the empty buffer. *)
Lemma decode_nonempty (bs : bytes) (n : Z) :
  Varint.decode bs = Return n -> bs <> [].
Proof. intros Hdec ->. discriminate Hdec. Qed.

(** X3: a successful extraction loses nothing and takes no more than
    announced. With [n] the decoded length, the chunk followed by the new
    cursor is the buffer without its first [encodingLength n] bytes, the
    chunk has at most [n] bytes, and chunk and cursor together are shorter
    than the buffer was. *)
Theorem extract_partitions (bs chunk rest : bytes) :
  len bs <= MAX_SAFE_INTEGER ->
  extractVarintPrefixed bs = Return (chunk, rest) ->
  exists n : Z,
    Varint.decode bs = Return n
    /\ chunk ++ rest = skipn (Z.to_nat (Varint.encodingLength n)) bs
    /\ len chunk <= n
    /\ len chunk + len rest < len bs.
Proof.
  intros Hlen Hex.
  destruct (Varint.decode bs) as [n|e] eqn:Hdec;
    [|rewrite (extract_throws _ _ Hdec) in Hex; discriminate Hex].
  rewrite (extract_decoded _ _ Hlen Hdec) in Hex. injection Hex as <- <-.
  pose proof (decode_nonneg _ _ Hdec) as Hn.
  pose proof (encodingLength_pos n) as Hk.
  pose proof (decode_nonempty _ _ Hdec) as Hne.
  exists n. split; [reflexivity|].
  set (k := Varint.encodingLength n) in *.
  replace (Z.to_nat (n + k)) with (Z.to_nat n + Z.to_nat k)%nat by lia.
  rewrite <- skipn_skipn.
  split; [apply firstn_skipn|].
  assert (Hnz : (0 < List.length bs)%nat) by (destruct bs; [congruence | cbn; lia]).
  unfold len. rewrite length_firstn, !length_skipn. split; lia.
Qed.

Section HeaderFacts.
Context `{TextCodec}.

(** [extractVarintPrefixed] throws the exception of the decoder and no
    other. *)
Lemma decode_loop_exception (buf : bytes) :
  forall res shift e,
    Varint.decode_loop buf res shift = Throw e ->
    e = RangeError "Could not decode varint".
Proof.
  induction buf as [|b buf IH]; intros res shift e; cbn [Varint.decode_loop].
  - intros [= <-]. reflexivity.
  - destruct (49 <? shift); [intros [= <-]; reflexivity|].
    destruct (Varint.MSB <=? byte_to_Z b); [apply IH | discriminate].
Qed.

Lemma extract_exception (bs : bytes) (e : exn) :
  extractVarintPrefixed bs = Throw e -> e = RangeError "Could not decode varint".
Proof.
  unfold extractVarintPrefixed.
  destruct (Varint.decode bs) as [n|e'] eqn:Hdec; cbn [bind]; [discriminate|].
  intros [= <-]. apply (decode_loop_exception _ _ _ _ Hdec).
Qed.

(** X4: the header of a serialised record is one chunk, and [deserialize]
    reads the record back from it. *)
Theorem deserialize_serialized (m : AADMeta.t) :
  text_ok AADMeta.METADATA_VERSION ->
  text_ok (AADMeta.version m) ->
  text_ok (AADMeta.type m) ->
  len (AADMeta.serialize m) <= MAX_SAFE_INTEGER ->
  exists header : bytes,
    extractVarintPrefixed (AADMeta.serialize m) = Return (header, [])
    /\ AADMeta.deserialize header = Return (Some m).
Proof.
  intros Hmv Hver Hty Hlen. unfold text_ok in *.
  rewrite serialize_header in *. unfold Layout.header in *.
  change "0.1.0" with AADMeta.METADATA_VERSION in *.
  set (inner := Layout.length_prefix (utf8_encode AADMeta.METADATA_VERSION) ++ _) in *.
  assert (Hinner : len inner <= MAX_SAFE_INTEGER)
    by (pose proof (len_length_prefix inner); len_lia).
  exists inner. split.
  - rewrite <- (app_nil_r (Layout.length_prefix inner)).
    apply extract_length_prefix. rewrite app_nil_r. assumption.
  - unfold inner. rewrite deserialize_fields by assumption.
    rewrite Hver, Hty. destruct m; reflexivity.
Qed.

(** [deserialize] answers [null] on a foreign format version only. *)
Lemma deserialize_null_inversion (data : bytes) :
  AADMeta.deserialize data = Return None ->
  exists field fields : bytes,
    extractVarintPrefixed data = Return (field, fields)
    /\ utf8_decode field <> AADMeta.METADATA_VERSION.
Proof.
  unfold AADMeta.deserialize.
  destruct (extractVarintPrefixed data) as [[field bs]|e]; [|discriminate].
  cbn [bind].
  destruct (utf8_decode field =? AADMeta.METADATA_VERSION)%string eqn:E; cbn [negb].
  - destruct (extractVarintPrefixed bs) as [[f1 bs1]|e]; [|discriminate]. cbn [bind].
    destruct (extractVarintPrefixed bs1) as [[f2 bs2]|e]; [|discriminate]. cbn [bind].
    destruct (extractVarintPrefixed bs2) as [[f3 bs3]|e]; [|discriminate]. cbn [bind].
    destruct (negb (List.length bs3 =? 0)%nat); discriminate.
  - intros _. exists field, bs. split; [reflexivity|].
    apply String.eqb_neq. assumption.
Qed.

(** X5: [deserialize] answers [null] in one case only: the first field was
    extracted and does not decode to the supported format version. *)
Theorem deserialize_null_iff (data : bytes) :
  AADMeta.deserialize data = Return None
  <-> exists field fields : bytes,
        extractVarintPrefixed data = Return (field, fields)
        /\ utf8_decode field <> AADMeta.METADATA_VERSION.
Proof.
  split; [apply deserialize_null_inversion|].
  intros (field & fields & Hex & Hv). apply String.eqb_neq in Hv.
  unfold AADMeta.deserialize. rewrite Hex. cbn [bind]. rewrite Hv. reflexivity.
Qed.

(** X6: [deserialize] throws "unexpected additional content in header"
    exactly when the four fields were extracted, the first decodes to the
    supported format version, and bytes are left after the fourth. *)
Theorem deserialize_trailing_iff (data : bytes) :
  AADMeta.deserialize data = Throw (Error "unexpected additional content in header")
  <-> exists f0 b0 f1 b1 f2 b2 f3 b3 : bytes,
        extractVarintPrefixed data = Return (f0, b0)
        /\ utf8_decode f0 = AADMeta.METADATA_VERSION
        /\ extractVarintPrefixed b0 = Return (f1, b1)
        /\ extractVarintPrefixed b1 = Return (f2, b2)
        /\ extractVarintPrefixed b2 = Return (f3, b3)
        /\ b3 <> [].
Proof.
  split.
  - unfold AADMeta.deserialize.
    destruct (extractVarintPrefixed data) as [[f0 b0]|e] eqn:E0;
      [|cbn [bind]; intros [= ->]; apply extract_exception in E0; discriminate E0].
    cbn [bind].
    destruct (utf8_decode f0 =? AADMeta.METADATA_VERSION)%string eqn:Ev; cbn [negb];
      [|discriminate].
    destruct (extractVarintPrefixed b0) as [[f1 b1]|e] eqn:E1;
      [|cbn [bind]; intros [= ->]; apply extract_exception in E1; discriminate E1].
    cbn [bind].
    destruct (extractVarintPrefixed b1) as [[f2 b2]|e] eqn:E2;
      [|cbn [bind]; intros [= ->]; apply extract_exception in E2; discriminate E2].
    cbn [bind].
    destruct (extractVarintPrefixed b2) as [[f3 b3]|e] eqn:E3;
      [|cbn [bind]; intros [= ->]; apply extract_exception in E3; discriminate E3].
    cbn [bind].
    destruct b3 as [|x b3]; [discriminate|]. intros _.
    exists f0, b0, f1, b1, f2, b2, f3, (x :: b3).
    apply String.eqb_eq in Ev. repeat split; try assumption; try reflexivity.
    discriminate.
  - intros (f0 & b0 & f1 & b1 & f2 & b2 & f3 & b3 & E0 & Ev & E1 & E2 & E3 & Hne).
    unfold AADMeta.deserialize. rewrite E0. cbn [bind].
    rewrite Ev, String.eqb_refl. cbn [negb].
    rewrite E1. cbn [bind]. rewrite E2. cbn [bind]. rewrite E3. cbn [bind].
    destruct b3; [congruence | reflexivity].
Qed.

Lemma deserialize_exception (data : bytes) (e : exn) :
  AADMeta.deserialize data = Throw e -> header_exception e.
Proof.
  unfold AADMeta.deserialize, header_exception.
  destruct (extractVarintPrefixed data) as [[f0 b0]|e0] eqn:E0;
    [|cbn [bind]; intros [= <-]; left; apply (extract_exception _ _ E0)].
  cbn [bind].
  destruct (negb (utf8_decode f0 =? AADMeta.METADATA_VERSION)%string); [discriminate|].
  destruct (extractVarintPrefixed b0) as [[f1 b1]|e1] eqn:E1;
    [|cbn [bind]; intros [= <-]; left; apply (extract_exception _ _ E1)].
  cbn [bind].
  destruct (extractVarintPrefixed b1) as [[f2 b2]|e2] eqn:E2;
    [|cbn [bind]; intros [= <-]; left; apply (extract_exception _ _ E2)].
  cbn [bind].
  destruct (extractVarintPrefixed b2) as [[f3 b3]|e3] eqn:E3;
    [|cbn [bind]; intros [= <-]; left; apply (extract_exception _ _ E3)].
  cbn [bind].
  destruct (negb (List.length b3 =? 0)%nat); [|discriminate].
  intros [= <-]. right. left. reflexivity.
Qed.

Lemma unpack_exception (data : bytes) (e : exn) :
  AADMeta.unpack data = Throw e -> header_exception e.
Proof.
  unfold AADMeta.unpack.
  destruct (extractVarintPrefixed data) as [[header rest]|e0] eqn:E0;
    [|cbn [bind]; intros [= <-]; left; apply (extract_exception _ _ E0)].
  cbn [bind].
  destruct (AADMeta.deserialize header) as [metadata|e1] eqn:E1;
    [|cbn [bind]; intros [= <-]; apply (deserialize_exception _ _ E1)].
  cbn [bind].
  destruct (extractVarintPrefixed header) as [[field fields]|e2] eqn:E2;
    [|cbn [bind]; intros [= <-]; left; apply (extract_exception _ _ E2)].
  cbn [bind].
  destruct (negb (utf8_decode field =? AADMeta.METADATA_VERSION)%string); [|discriminate].
  intros [= <-]. right. right. reflexivity.
Qed.

(** X7: [AADMeta.unpack] throws three exceptions and no other: the
    [RangeError] of the varint decoder, "unexpected additional content in
    header" and "unrecognized metadata version". *)
Theorem unpack_throws_three (data : bytes) (e : exn) :
  AADMeta.unpack data = Throw e ->
  e = RangeError "Could not decode varint"
  \/ e = Error "unexpected additional content in header"
  \/ e = Error "unrecognized metadata version".
Proof. apply unpack_exception. Qed.

(** A serialised header followed by any content, unpacked, for any version
    and type: the two strings come back as the codec decodes what it
    encoded. *)
Lemma unpack_serialized_recoded (m : AADMeta.t) (content : bytes) :
  text_ok AADMeta.METADATA_VERSION ->
  len (AADMeta.serialize m ++ content) <= MAX_SAFE_INTEGER ->
  AADMeta.unpack (AADMeta.serialize m ++ content)
  = Return (Some (AADMeta.Unpacked
                    (Some (AADMeta.Build (recode (AADMeta.version m))
                             (recode (AADMeta.type m)) (AADMeta.nonce m)))
                    (AADMeta.serialize m) content)).
Proof.
  intros Hmv Hlen. unfold text_ok in *.
  rewrite serialize_header in *. unfold Layout.header in *.
  change "0.1.0" with AADMeta.METADATA_VERSION in *.
  set (inner := Layout.length_prefix (utf8_encode AADMeta.METADATA_VERSION) ++ _) in *.
  assert (Hinner : len inner <= MAX_SAFE_INTEGER)
    by (pose proof (len_length_prefix inner); len_lia).
  unfold AADMeta.unpack.
  rewrite extract_length_prefix by assumption. cbn [bind].
  rewrite varintPrefixed_length_prefix.
  rewrite slice_from_skipn by apply len_nonneg.
  replace (Z.to_nat (len (Layout.length_prefix inner)))
    with (List.length (Layout.length_prefix inner)) by (unfold len; lia).
  rewrite skipn_app, skipn_all, Nat.sub_diag, skipn_O. cbn [app].
  unfold inner at 1. rewrite deserialize_fields by assumption. cbn [bind].
  unfold inner at 1. rewrite extract_length_prefix by assumption. cbn [bind].
  rewrite Hmv, String.eqb_refl. reflexivity.
Qed.

(** X8: a serialised header followed by any content unpacks into a record,
    the header bytes as they were written, and the content. The record has
    the nonce of the header, and its version and type are those of the
    header as the text codec decodes what it encoded: the strings themselves
    when the codec gives them back, something else otherwise (a leading
    byte-order mark is lost). *)
Theorem unpack_serialize_roundtrip (m : AADMeta.t) (content : bytes) :
  text_ok AADMeta.METADATA_VERSION ->
  len (AADMeta.serialize m ++ content) <= MAX_SAFE_INTEGER ->
  AADMeta.unpack (AADMeta.serialize m ++ content)
  = Return (Some (AADMeta.Unpacked
                    (Some (AADMeta.Build (recode (AADMeta.version m))
                             (recode (AADMeta.type m)) (AADMeta.nonce m)))
                    (AADMeta.serialize m) content))
  /\ (text_ok (AADMeta.version m) -> text_ok (AADMeta.type m) ->
      AADMeta.Build (recode (AADMeta.version m)) (recode (AADMeta.type m))
        (AADMeta.nonce m) = m).
Proof.
  intros Hmv Hlen. split; [apply unpack_serialized_recoded; assumption|].
  unfold text_ok, recode. intros -> ->. destruct m; reflexivity.
Qed.

(** What a returning [unpack] has gone through. *)
Lemma unpack_inversion (data : bytes) (r : option AADMeta.unpacked) :
  AADMeta.unpack data = Return r ->
  exists (m : AADMeta.t) (header rest field fields : bytes),
    r = Some (AADMeta.Unpacked (Some m) (varintPrefixed header)
                (slice_from data (len (varintPrefixed header))))
    /\ extractVarintPrefixed data = Return (header, rest)
    /\ AADMeta.deserialize header = Return (Some m)
    /\ extractVarintPrefixed header = Return (field, fields)
    /\ utf8_decode field = AADMeta.METADATA_VERSION.
Proof.
  unfold AADMeta.unpack.
  destruct (extractVarintPrefixed data) as [[header rest]|e] eqn:E0; [|discriminate].
  cbn [bind].
  destruct (AADMeta.deserialize header) as [[m|]|e] eqn:E1; cbn [bind];
    [| |discriminate].
  - destruct (extractVarintPrefixed header) as [[field fields]|e] eqn:E2;
      [|discriminate].
    cbn [bind].
    destruct (utf8_decode field =? AADMeta.METADATA_VERSION)%string eqn:Ev;
      cbn [negb]; [|discriminate].
    intros [= <-]. apply String.eqb_eq in Ev.
    exists m, header, rest, field, fields. repeat split; assumption.
  - apply deserialize_null_inversion in E1. destruct E1 as (field & fields & E2 & Hv).
    rewrite E2. cbn [bind]. apply String.eqb_neq in Hv. rewrite Hv. discriminate.
Qed.

(** X9: [unpack] returns for no other header than one whose first field
    decodes to the supported format version and from which [deserialize]
    read a record; the result is never [null], its metadata never [null],
    [rawMetadata] is the header chunk under a fresh prefix, and [content] is
    the buffer after that many bytes. *)
Theorem unpack_returns_supported (data : bytes) (r : option AADMeta.unpacked) :
  AADMeta.unpack data = Return r ->
  exists (m : AADMeta.t) (header rest field fields : bytes),
    r = Some (AADMeta.Unpacked (Some m) (varintPrefixed header)
                (slice_from data (len (varintPrefixed header))))
    /\ extractVarintPrefixed data = Return (header, rest)
    /\ AADMeta.deserialize header = Return (Some m)
    /\ extractVarintPrefixed header = Return (field, fields)
    /\ utf8_decode field = AADMeta.METADATA_VERSION.
Proof. apply unpack_inversion. Qed.

(** X10: an envelope parses in one way only: two serialised headers, each
    followed by a content, that give the same bytes have the same fields and
    the same content. *)
Theorem serialize_unique_parse (m1 m2 : AADMeta.t) (c1 c2 : bytes) :
  text_ok AADMeta.METADATA_VERSION ->
  text_ok (AADMeta.version m1) -> text_ok (AADMeta.type m1) ->
  text_ok (AADMeta.version m2) -> text_ok (AADMeta.type m2) ->
  len (AADMeta.serialize m1 ++ c1) <= MAX_SAFE_INTEGER ->
  AADMeta.serialize m1 ++ c1 = AADMeta.serialize m2 ++ c2 ->
  m1 = m2 /\ c1 = c2.
Proof.
  intros Hmv Hv1 Ht1 Hv2 Ht2 Hlen Heq.
  pose proof (unpack_serialized m1 c1 Hmv Hv1 Ht1 Hlen) as H1.
  rewrite Heq in H1, Hlen.
  rewrite (unpack_serialized m2 c2 Hmv Hv2 Ht2 Hlen) in H1.
  injection H1 as -> _ ->. split; reflexivity.
Qed.

(** X11: the associated data that [unpack] hands on is in normal form:
    unpacked again, [rawMetadata] gives the same metadata, itself as
    [rawMetadata], and an empty content. *)
Theorem unpack_rawMetadata_fixpoint (data : bytes) (u : AADMeta.unpacked) :
  AADMeta.unpack data = Return (Some u) ->
  len (AADMeta.rawMetadata u) <= MAX_SAFE_INTEGER ->
  AADMeta.unpack (AADMeta.rawMetadata u)
  = Return (Some (AADMeta.Unpacked (AADMeta.metadata u) (AADMeta.rawMetadata u) [])).
Proof.
  intros Hun Hlen. apply unpack_inversion in Hun.
  destruct Hun as (m & header & rest & field & fields & Hr & _ & Hdes & Hex & Hv).
  injection Hr as ->. cbn [AADMeta.rawMetadata AADMeta.metadata] in *.
  rewrite varintPrefixed_length_prefix in *.
  unfold AADMeta.unpack.
  rewrite <- (app_nil_r (Layout.length_prefix header)) at 1.
  rewrite extract_length_prefix by (rewrite app_nil_r; assumption).
  cbn [bind]. rewrite varintPrefixed_length_prefix.
  rewrite Hdes. cbn [bind]. rewrite Hex. cbn [bind].
  rewrite Hv, String.eqb_refl. cbn [negb].
  rewrite slice_from_skipn by apply len_nonneg.
  rewrite skipn_all2 by (unfold len; lia). reflexivity.
Qed.

End HeaderFacts.

(** * Further properties of the envelope *)

Section EnvelopeFacts.
Context `{TextCodec} `{Cipher}.

(** What [inspect] raises, [unpack] raised. *)
Lemma inspect_throw_inversion (wire : TypedBytes.t) (e : exn) :
  TypedBytes.inspect wire = Throw e -> AADMeta.unpack (TypedBytes.buf wire) = Throw e.
Proof.
  unfold TypedBytes.inspect.
  destruct (AADMeta.unpack (TypedBytes.buf wire)) as [[u|]|e']; cbn [bind];
    [destruct (AADMeta.metadata u) | |]; try discriminate.
  intros [= <-]. reflexivity.
Qed.

(** Decrypting an envelope whose header was serialised here, for any
    version and type: the class decodes at the version, and is compared with
    the tag, that the codec decodes from the header. *)
Lemma decrypt_sealed_recoded {T : Type} (key : Key) (cls : DatagramConstructor.t T)
    (m : AADMeta.t) (sealed plaintext : bytes) :
  text_ok AADMeta.METADATA_VERSION ->
  len (AADMeta.serialize m ++ sealed) <= MAX_SAFE_INTEGER ->
  open key (AADMeta.nonce m) sealed (AADMeta.serialize m)
    = Return (Some plaintext) ->
  TaggedSecretBox.decrypt key cls (TypedBytes.Build (AADMeta.serialize m ++ sealed))
  = candidate <- DatagramConstructor.deserialize cls plaintext
                   (recode (AADMeta.version m)) ;;
    if (DatagramConstructor.type cls =? recode (AADMeta.type m))%string
    then Return candidate else Return None.
Proof.
  intros Hmv Hlen Hopen. unfold TaggedSecretBox.decrypt.
  cbn [TypedBytes.buf]. rewrite unpack_serialized_recoded by assumption.
  cbn [bind AADMeta.metadata AADMeta.content AADMeta.rawMetadata AADMeta.nonce
         AADMeta.version AADMeta.type].
  rewrite Hopen. reflexivity.
Qed.

Lemma decrypt_encrypt_recoded {A B : Type} (key : Key)
    (obj : Datagram.t A) (cls : DatagramConstructor.t B) (nonce sealed : bytes) :
  text_ok AADMeta.METADATA_VERSION ->
  seal key nonce (Datagram.serialize obj)
    (AADMeta.serialize (AADMeta.Build (Datagram.version obj) (Datagram.type obj) nonce))
    = Return sealed ->
  open key nonce sealed
    (AADMeta.serialize (AADMeta.Build (Datagram.version obj) (Datagram.type obj) nonce))
    = Return (Some (Datagram.serialize obj)) ->
  len (AADMeta.serialize
         (AADMeta.Build (Datagram.version obj) (Datagram.type obj) nonce) ++ sealed)
    <= MAX_SAFE_INTEGER ->
  exists wire : TypedBytes.t,
    TaggedSecretBox.encrypt key obj nonce = Return wire
    /\ TaggedSecretBox.decrypt key cls wire
       = candidate <- DatagramConstructor.deserialize cls (Datagram.serialize obj)
                        (recode (Datagram.version obj)) ;;
         if (DatagramConstructor.type cls =? recode (Datagram.type obj))%string
         then Return candidate else Return None.
Proof.
  intros Hmv Hseal Hopen Hlen.
  eexists. split; [apply encrypt_sealed; eassumption|].
  rewrite (decrypt_sealed_recoded key cls _ sealed (Datagram.serialize obj));
    [reflexivity | assumption | assumption | assumption].
Qed.

(** X12: the wire format, for a datagram whose [serialize()] has returned
    its bytes. When the cipher seals them, the envelope is the header of the
    specification, made of the version and the tag of the datagram and of the
    nonce, followed by the sealed bytes, and that header is the associated
    data the cipher was given; when the cipher throws, [encrypt] throws the
    same exception. *)
Theorem encrypt_wire_format {T : Type} (key : Key) (obj : Datagram.t T)
    (nonce : bytes) :
  TaggedSecretBox.encrypt key obj nonce
  = match seal key nonce (Datagram.serialize obj)
            (Layout.header (Datagram.version obj) (Datagram.type obj) nonce) with
    | Return sealed =>
        Return (TypedBytes.Build
                  (Layout.header (Datagram.version obj) (Datagram.type obj) nonce
                     ++ sealed))
    | Throw e => Throw e
    end.
Proof.
  unfold TaggedSecretBox.encrypt. rewrite serialize_header.
  cbn [AADMeta.version AADMeta.type AADMeta.nonce].
  destruct (seal key nonce _ _) as [sealed|e]; cbn [bind]; [|reflexivity].
  rewrite concatUint8Arrays_concat. cbn [List.concat]. rewrite app_nil_r.
  reflexivity.
Qed.

(** X13: with the nonce left out, the envelope carries the nonce that
    [randomBytes(NONCE_LENGTH)] drew: [inspect] reads it back and asks for no
    key. With it come the version and the tag of the datagram as the text
    codec decodes what it encoded: the strings themselves when the codec
    gives them back. *)
Theorem inspect_encrypt_default {T : Type} (randomBytes : Z -> bytes)
    (key : Key) (obj : Datagram.t T) (wire : TypedBytes.t) :
  text_ok AADMeta.METADATA_VERSION ->
  TaggedSecretBox.encrypt_default randomBytes key obj = Return wire ->
  len (TypedBytes.buf wire) <= MAX_SAFE_INTEGER ->
  TypedBytes.inspect wire
  = Return (Some (AADMeta.Build (recode (Datagram.version obj))
                    (recode (Datagram.type obj)) (randomBytes NONCE_LENGTH)))
  /\ (text_ok (Datagram.version obj) -> text_ok (Datagram.type obj) ->
      TypedBytes.inspect wire
      = Return (Some (AADMeta.Build (Datagram.version obj) (Datagram.type obj)
                        (randomBytes NONCE_LENGTH)))).
Proof.
  intros Hmv Henc Hlen. unfold TaggedSecretBox.encrypt_default in Henc.
  unfold TaggedSecretBox.encrypt in Henc.
  destruct (seal key _ (Datagram.serialize obj) _) as [sealed|e] eqn:Hseal;
    [|discriminate].
  cbn [bind] in Henc. injection Henc as <-.
  rewrite concatUint8Arrays_concat in *. cbn [List.concat TypedBytes.buf] in *.
  rewrite app_nil_r in *.
  unfold TypedBytes.inspect. cbn [TypedBytes.buf].
  rewrite unpack_serialized_recoded by assumption.
  cbn [bind AADMeta.metadata AADMeta.version AADMeta.type AADMeta.nonce].
  split; [reflexivity|].
  unfold text_ok, recode. intros -> ->. reflexivity.
Qed.

(** X14: [inspect] is a faithful first check: what it raises on a buffer,
    [decrypt] raises on the same buffer, under any key and for any class. *)
Theorem inspect_raises_decrypt_raises {T : Type} (key : Key)
    (cls : DatagramConstructor.t T) (wire : TypedBytes.t) (e : exn) :
  TypedBytes.inspect wire = Throw e ->
  TaggedSecretBox.decrypt key cls wire = Throw e.
Proof.
  intros Hinspect. apply inspect_throw_inversion in Hinspect.
  unfold TaggedSecretBox.decrypt. rewrite Hinspect. reflexivity.
Qed.


(** X16: the envelope is transparent. Decrypting what [encrypt] made of a
    datagram, with any class, is calling that class's [deserialize] on the
    datagram's serialised bytes, at the version that the codec decodes from
    the header, and keeping what it returns when the tag of the class is the
    tag that the codec decodes from the header: same value, same [null], same
    exception. When the codec gives the version and the tag back and the
    class has the tag of the datagram, [decrypt] is that call at the
    datagram's version. The cipher is asked to open what it sealed. *)
Theorem decrypt_is_class_deserialize {A B : Type} (key : Key)
    (obj : Datagram.t A) (cls : DatagramConstructor.t B) (nonce sealed : bytes) :
  text_ok AADMeta.METADATA_VERSION ->
  seal key nonce (Datagram.serialize obj)
    (AADMeta.serialize (AADMeta.Build (Datagram.version obj) (Datagram.type obj) nonce))
    = Return sealed ->
  open key nonce sealed
    (AADMeta.serialize (AADMeta.Build (Datagram.version obj) (Datagram.type obj) nonce))
    = Return (Some (Datagram.serialize obj)) ->
  len (AADMeta.serialize
         (AADMeta.Build (Datagram.version obj) (Datagram.type obj) nonce) ++ sealed)
    <= MAX_SAFE_INTEGER ->
  exists wire : TypedBytes.t,
    TaggedSecretBox.encrypt key obj nonce = Return wire
    /\ TaggedSecretBox.decrypt key cls wire
       = (candidate <- DatagramConstructor.deserialize cls (Datagram.serialize obj)
                         (recode (Datagram.version obj)) ;;
          if (DatagramConstructor.type cls =? recode (Datagram.type obj))%string
          then Return candidate else Return None)
    /\ (text_ok (Datagram.version obj) -> text_ok (Datagram.type obj) ->
        DatagramConstructor.type cls = Datagram.type obj ->
        TaggedSecretBox.decrypt key cls wire
        = DatagramConstructor.deserialize cls (Datagram.serialize obj)
            (Datagram.version obj)).
Proof.
  intros Hmv Hseal Hopen Hlen.
  destruct (decrypt_encrypt_recoded key obj cls nonce sealed Hmv Hseal Hopen Hlen)
    as (wire & Henc & Hdec).
  exists wire. split; [assumption|]. split; [assumption|].
  intros Hver Hty Htag. rewrite Hdec. clear Hdec. unfold text_ok, recode in *.
  rewrite Hver, Hty, Htag, String.eqb_refl.
  destruct (DatagramConstructor.deserialize cls (Datagram.serialize obj)
              (Datagram.version obj)); reflexivity.
Qed.


End EnvelopeFacts.

(** * Further properties of the Wrapper factory and of the test classes *)

Section WrapperCodec.
Context `{TextCodec} `{Semver} `{Json}.

(** X19: the tag keeps factories apart: what one factory wrapped, the
    [deserialize] of a factory with another tag answers [null] to, whatever
    the version asked for. The generic codec is asked to decode what it
    encoded. *)
Theorem wrapper_foreign_tag (f g : Wrapper.factory) (data : value)
    (version version' : string) (d : Datagram.t value) :
  Wrapper.wrap f data version = Return d ->
  JSON_parse (utf8_decode (Datagram.serialize d))
    = Return (Wrapper.wrapped f data version) ->
  Wrapper.typeName g <> Wrapper.typeName f ->
  Wrapper.deserialize g (Datagram.serialize d) version' = Return None.
Proof.
  intros Hwrap Hjson Htag.
  rewrite (deserialize_parsed g _ version' _ Hjson).
  cbn [Wrapper.wrapped loosely_null member lookup_prop String.eqb Ascii.eqb
         Bool.eqb strict_neq_string orb].
  apply not_eq_sym, String.eqb_neq in Htag. rewrite Htag. reflexivity.
Qed.

End WrapperCodec.

Section TestClasses.
Context `{TextCodec} `{Semver} `{Json} `{Cipher}.

(** X20: [Example] of the tests, through the envelope, under a tag that
    the text codec gives back. Its constructor takes any version, its
    [deserialize] the versions of [0.1.*] only. What comes back has the data
    of the value and its version as the codec decodes it from the header, if
    the range takes that version, and is [null] otherwise. So a value whose
    version the codec gives back comes back as it was when the range takes
    its version, and is encrypted without complaint and comes back as [null]
    when the range does not. *)
Theorem example_through_envelope (type : string) (range : Range) (key : Key)
    (v : Example.t) (nonce sealed : bytes) :
  Range_new "0.1.*" = Return range ->
  text_ok AADMeta.METADATA_VERSION ->
  text_ok type ->
  seal key nonce (Example.data v)
    (AADMeta.serialize (AADMeta.Build (Example.version v) type nonce))
    = Return sealed ->
  open key nonce sealed
    (AADMeta.serialize (AADMeta.Build (Example.version v) type nonce))
    = Return (Some (Example.data v)) ->
  len (AADMeta.serialize (AADMeta.Build (Example.version v) type nonce) ++ sealed)
    <= MAX_SAFE_INTEGER ->
  exists wire : TypedBytes.t,
    TaggedSecretBox.encrypt key (@datagram_of Example.t (Example.class type) v) nonce
      = Return wire
    /\ TaggedSecretBox.decrypt key (@type_of Example.t (Example.class type)) wire
       = Return (if Range_test range (recode (Example.version v))
                 then Some (Example.Build (Example.data v)
                              (recode (Example.version v)))
                 else None)
    /\ (text_ok (Example.version v) ->
        TaggedSecretBox.decrypt key (@type_of Example.t (Example.class type)) wire
        = Return (if Range_test range (Example.version v) then Some v else None)).
Proof.
  intros Hrange Hmv Hty Hseal Hopen Hlen.
  destruct (decrypt_encrypt_recoded key
              (@datagram_of Example.t (Example.class type) v)
              (@type_of Example.t (Example.class type)) nonce sealed)
    as (wire & Henc & Hdec); try assumption.
  exists wire. split; [assumption|].
  assert (Hgen : TaggedSecretBox.decrypt key
                   (@type_of Example.t (Example.class type)) wire
                 = Return (if Range_test range (recode (Example.version v))
                           then Some (Example.Build (Example.data v)
                                        (recode (Example.version v)))
                           else None)).
  { rewrite Hdec.
    cbn [type_of datagram_of DatagramConstructor.deserialize
           DatagramConstructor.type Datagram.serialize Datagram.version
           Datagram.type Example.class deserialize_of serialize_of version_of tag].
    unfold Example.deserialize. rewrite Hrange. cbn [bind].
    unfold Example.serialize.
    unfold text_ok in Hty. unfold recode at 3. rewrite Hty, String.eqb_refl.
    destruct (Range_test range (recode (Example.version v))); reflexivity. }
  split; [assumption|].
  intros Hver. rewrite Hgen. unfold text_ok in Hver. unfold recode.
  rewrite Hver. destruct v; reflexivity.
Qed.

(** X21: the test [No funny games]: an envelope made of a [FooV012],
    decrypted with the class [FooV011], gives [null]. The two classes have
    one tag; it is the version of the header, which [FooV011] does not take
    for its own, that keeps them apart, and [JSON.parse] is not reached. *)
Theorem foo_versions_apart (key : Key) (v : FooV012.t) (nonce sealed : bytes) :
  text_ok AADMeta.METADATA_VERSION ->
  text_ok FooV012.version ->
  text_ok FooBase.type ->
  seal key nonce (FooV012.serialize v)
    (AADMeta.serialize (AADMeta.Build FooV012.version FooBase.type nonce))
    = Return sealed ->
  open key nonce sealed
    (AADMeta.serialize (AADMeta.Build FooV012.version FooBase.type nonce))
    = Return (Some (FooV012.serialize v)) ->
  len (AADMeta.serialize (AADMeta.Build FooV012.version FooBase.type nonce) ++ sealed)
    <= MAX_SAFE_INTEGER ->
  exists wire : TypedBytes.t,
    TaggedSecretBox.encrypt key (FooV012.datagram v) nonce = Return wire
    /\ TaggedSecretBox.decrypt key FooV011.class wire = Return None.
Proof.
  intros Hmv Hver Hty Hseal Hopen Hlen.
  destruct (decrypt_encrypt_transparent key (FooV012.datagram v) FooV011.class
              nonce sealed)
    as (wire & Henc & Hdec); try assumption; [reflexivity|].
  exists wire. split; [assumption|].
  rewrite Hdec. reflexivity.
Qed.

(** X22: a [FooV011] comes back from its envelope with the members it had.
    The generic codec is asked to decode what it encoded. *)
Theorem foo_v011_roundtrip (key : Key) (v : FooV011.t) (nonce sealed : bytes) :
  JSON_parse (utf8_decode (FooV011.serialize v))
    = Return (VObject [("a", FooV011.a v); ("b", FooV011.b v); ("c", FooV011.c v)]) ->
  text_ok AADMeta.METADATA_VERSION ->
  text_ok FooV011.version ->
  text_ok FooBase.type ->
  seal key nonce (FooV011.serialize v)
    (AADMeta.serialize (AADMeta.Build FooV011.version FooBase.type nonce))
    = Return sealed ->
  open key nonce sealed
    (AADMeta.serialize (AADMeta.Build FooV011.version FooBase.type nonce))
    = Return (Some (FooV011.serialize v)) ->
  len (AADMeta.serialize (AADMeta.Build FooV011.version FooBase.type nonce) ++ sealed)
    <= MAX_SAFE_INTEGER ->
  exists wire : TypedBytes.t,
    TaggedSecretBox.encrypt key (FooV011.datagram v) nonce = Return wire
    /\ TaggedSecretBox.decrypt key FooV011.class wire = Return (Some v).
Proof.
  intros Hjson Hmv Hver Hty Hseal Hopen Hlen.
  destruct (decrypt_encrypt_transparent key (FooV011.datagram v) FooV011.class
              nonce sealed)
    as (wire & Henc & Hdec); try assumption; [reflexivity|].
  exists wire. split; [assumption|].
  rewrite Hdec.
  cbn [FooV011.class FooV011.datagram DatagramConstructor.deserialize
         Datagram.serialize Datagram.version].
  unfold FooV011.deserialize. rewrite String.eqb_refl, Hjson.
  destruct v; reflexivity.
Qed.

End TestClasses.

(** X23: the prefix that [varintPrefixed] writes is as long as
    [encodingLength] says, which is what [extractVarintPrefixed] relies on to
    find the chunk; the data follows it unchanged. *)
Theorem varintPrefixed_prefix_length (data : bytes) :
  len data <= MAX_SAFE_INTEGER ->
  len (varintPrefixed data) = Varint.encodingLength (len data) + len data
  /\ skipn (Z.to_nat (Varint.encodingLength (len data))) (varintPrefixed data) = data.
Proof.
  intros Hlen. pose proof (len_nonneg data) as Hd.
  unfold MAX_SAFE_INTEGER in Hlen.
  rewrite varintPrefixed_length_prefix, encodingLength_len by lia.
  unfold Layout.length_prefix. rewrite len_app. split; [reflexivity|].
  replace (Z.to_nat (len (Layout.varint (len data))))
    with (List.length (Layout.varint (len data))) by (unfold len; lia).
  rewrite skipn_app, skipn_all, Nat.sub_diag, skipn_O. reflexivity.
Qed.

Section DecryptOutcomes.
Context `{TextCodec} `{Cipher}.

(** [inspect] on a buffer that unpacks. *)
Lemma inspect_unpacked (wire : TypedBytes.t) (m : AADMeta.t) (raw content : bytes) :
  AADMeta.unpack (TypedBytes.buf wire)
    = Return (Some (AADMeta.Unpacked (Some m) raw content)) ->
  TypedBytes.inspect wire = Return (Some m).
Proof. intros Hun. unfold TypedBytes.inspect. rewrite Hun. reflexivity. Qed.

(** X24: what a value returned by [decrypt] stands for, on any buffer: the
    header parsed, and [inspect] shows it; the cipher authenticated the
    content under the nonce of the header and the header's bytes; the class
    decoded the plaintext at the version of the header; and the tag of the
    class is the tag of the header. *)
Theorem decrypt_value_inversion {T : Type} (key : Key)
    (cls : DatagramConstructor.t T) (wire : TypedBytes.t) (r : T) :
  TaggedSecretBox.decrypt key cls wire = Return (Some r) ->
  exists (m : AADMeta.t) (raw content plaintext : bytes),
    AADMeta.unpack (TypedBytes.buf wire)
      = Return (Some (AADMeta.Unpacked (Some m) raw content))
    /\ TypedBytes.inspect wire = Return (Some m)
    /\ open key (AADMeta.nonce m) content raw = Return (Some plaintext)
    /\ DatagramConstructor.deserialize cls plaintext (AADMeta.version m)
       = Return (Some r)
    /\ DatagramConstructor.type cls = AADMeta.type m.
Proof.
  unfold TaggedSecretBox.decrypt.
  destruct (AADMeta.unpack (TypedBytes.buf wire)) as [u|e] eqn:Hun; [|discriminate].
  destruct (unpack_returns_metadata _ _ Hun) as (m & raw & content & ->).
  cbn [bind AADMeta.metadata AADMeta.content AADMeta.rawMetadata AADMeta.nonce].
  destruct (open key (AADMeta.nonce m) content raw) as [[plaintext|]|e] eqn:Hopen;
    cbn [bind]; try discriminate.
  destruct (DatagramConstructor.deserialize cls plaintext (AADMeta.version m))
    as [candidate|e] eqn:Hdes; cbn [bind]; [|discriminate].
  destruct (DatagramConstructor.type cls =? AADMeta.type m)%string eqn:Htag;
    [|discriminate].
  intros [= ->]. apply String.eqb_eq in Htag.
  exists m, raw, content, plaintext.
  repeat split; try assumption. apply (inspect_unpacked _ _ _ _ Hun).
Qed.

(** X25: [decrypt] answers [null] in three cases and no other, all of them
    after the header has parsed: the cipher did not authenticate the content,
    the class answered [null], or the class answered and its tag is not the
    tag of the header. *)
Theorem decrypt_null_iff {T : Type} (key : Key)
    (cls : DatagramConstructor.t T) (wire : TypedBytes.t) :
  TaggedSecretBox.decrypt key cls wire = Return None
  <-> exists (m : AADMeta.t) (raw content : bytes),
        AADMeta.unpack (TypedBytes.buf wire)
          = Return (Some (AADMeta.Unpacked (Some m) raw content))
        /\ (open key (AADMeta.nonce m) content raw = Return None
            \/ exists (plaintext : bytes) (candidate : option T),
                 open key (AADMeta.nonce m) content raw = Return (Some plaintext)
                 /\ DatagramConstructor.deserialize cls plaintext (AADMeta.version m)
                    = Return candidate
                 /\ (candidate = None
                     \/ DatagramConstructor.type cls <> AADMeta.type m)).
Proof.
  unfold TaggedSecretBox.decrypt. split.
  - destruct (AADMeta.unpack (TypedBytes.buf wire)) as [u|e] eqn:Hun; [|discriminate].
    destruct (unpack_returns_metadata _ _ Hun) as (m & raw & content & ->).
    cbn [bind AADMeta.metadata AADMeta.content AADMeta.rawMetadata AADMeta.nonce].
    intros Hdec. exists m, raw, content. split; [reflexivity|].
    destruct (open key (AADMeta.nonce m) content raw) as [[plaintext|]|e] eqn:Hopen;
      cbn [bind] in Hdec; [|left; reflexivity|discriminate].
    right. exists plaintext.
    destruct (DatagramConstructor.deserialize cls plaintext (AADMeta.version m))
      as [candidate|e] eqn:Hdes; cbn [bind] in Hdec; [|discriminate].
    exists candidate. split; [reflexivity|]. split; [reflexivity|].
    destruct (DatagramConstructor.type cls =? AADMeta.type m)%string eqn:Htag.
    + left. injection Hdec as ->. reflexivity.
    + right. apply String.eqb_neq. assumption.
  - intros (m & raw & content & Hun & Hcases). rewrite Hun.
    cbn [bind AADMeta.metadata AADMeta.content AADMeta.rawMetadata AADMeta.nonce].
    destruct Hcases as [Hopen|(plaintext & candidate & Hopen & Hdes & Hwhy)];
      rewrite Hopen; cbn [bind]; [reflexivity|].
    rewrite Hdes. cbn [bind].
    destruct Hwhy as [->|Htag].
    + destruct (DatagramConstructor.type cls =? AADMeta.type m)%string; reflexivity.
    + apply String.eqb_neq in Htag. rewrite Htag. reflexivity.
Qed.

End DecryptOutcomes.

(** ** The further properties at work on concrete buffers *)

Lemma extract_varintPrefixed_roundtrip_witness :
  extractVarintPrefixed (varintPrefixed [x01; x02; x03; x04; x05; x06] ++ [x09])
  = Return ([x01; x02; x03; x04; x05; x06], [x09]).
Proof.
  apply extract_varintPrefixed_roundtrip. vm_compute. discriminate.
Defined.

Lemma extract_partitions_witness :
  exists n : Z,
    Varint.decode [x05; x01; x02] = Return n
    /\ [x01; x02] ++ [] = skipn (Z.to_nat (Varint.encodingLength n)) [x05; x01; x02]
    /\ len [x01; x02] <= n
    /\ len [x01; x02] + len [] < len [x05; x01; x02].
Proof.
  apply (extract_partitions [x05; x01; x02] [x01; x02] []).
  - vm_compute. discriminate.
  - reflexivity.
Defined.

Lemma deserialize_serialized_witness :
  exists header : bytes,
    extractVarintPrefixed (@AADMeta.serialize byte_codec header_x) = Return (header, [])
    /\ @AADMeta.deserialize byte_codec header = Return (Some header_x).
Proof.
  apply (@deserialize_serialized byte_codec header_x).
  - reflexivity.
  - reflexivity.
  - reflexivity.
  - vm_compute. discriminate.
Defined.

Lemma unpack_throws_three_witness :
  Error "unexpected additional content in header"
    = RangeError "Could not decode varint"
  \/ Error "unexpected additional content in header"
     = Error "unexpected additional content in header"
  \/ Error "unexpected additional content in header"
     = Error "unrecognized metadata version".
Proof.
  apply (@unpack_throws_three byte_codec header_trailing).
  vm_compute. reflexivity.
Defined.

(** A header whose type starts with a byte-order mark: the mark is lost. *)
Lemma unpack_serialize_roundtrip_witness :
  @AADMeta.unpack bom_codec
    (@AADMeta.serialize bom_codec (AADMeta.Build "0.1.0" bom_x nonce_12)
       ++ [x07; x08])
  = Return (Some (AADMeta.Unpacked (Some (AADMeta.Build "0.1.0" "x" nonce_12))
                    (@AADMeta.serialize bom_codec
                       (AADMeta.Build "0.1.0" bom_x nonce_12))
                    [x07; x08])).
Proof.
  refine (proj1 (@unpack_serialize_roundtrip bom_codec
                   (AADMeta.Build "0.1.0" bom_x nonce_12) [x07; x08] _ _)).
  - reflexivity.
  - vm_compute. discriminate.
Defined.

Lemma unpack_returns_supported_witness :
  exists (m : AADMeta.t) (header rest field fields : bytes),
    Some (AADMeta.Unpacked (Some header_x)
            (@AADMeta.serialize byte_codec header_x) [x07; x08])
    = Some (AADMeta.Unpacked (Some m) (varintPrefixed header)
              (slice_from (@AADMeta.serialize byte_codec header_x ++ [x07; x08])
                 (len (varintPrefixed header))))
    /\ extractVarintPrefixed (@AADMeta.serialize byte_codec header_x ++ [x07; x08])
       = Return (header, rest)
    /\ @AADMeta.deserialize byte_codec header = Return (Some m)
    /\ extractVarintPrefixed header = Return (field, fields)
    /\ @utf8_decode byte_codec field = AADMeta.METADATA_VERSION.
Proof.
  apply (@unpack_returns_supported byte_codec).
  vm_compute. reflexivity.
Defined.

Lemma serialize_unique_parse_witness :
  header_x = header_x /\ [x07; x08] = [x07; x08].
Proof.
  apply (@serialize_unique_parse byte_codec header_x header_x [x07; x08] [x07; x08]);
    try reflexivity.
  vm_compute. discriminate.
Defined.

Lemma unpack_rawMetadata_fixpoint_witness :
  @AADMeta.unpack byte_codec (@AADMeta.serialize byte_codec header_x)
  = Return (Some (AADMeta.Unpacked (Some header_x)
                    (@AADMeta.serialize byte_codec header_x) [])).
Proof.
  apply (@unpack_rawMetadata_fixpoint byte_codec
           (@AADMeta.serialize byte_codec header_x ++ [x07; x08])
           (AADMeta.Unpacked (Some header_x)
              (@AADMeta.serialize byte_codec header_x) [x07; x08])).
  - vm_compute. reflexivity.
  - vm_compute. discriminate.
Defined.

Lemma inspect_encrypt_default_witness :
  @TypedBytes.inspect byte_codec
    (TypedBytes.Build (@AADMeta.serialize byte_codec header_x
                         ++ [x01; x02; x03; x04; x05]))
  = Return (Some (AADMeta.Build "0.1.0" "x" nonce_12)).
Proof.
  refine (proj1 (@inspect_encrypt_default byte_codec clear_cipher Example.t
                   (fun _ => nonce_12) zero_key
                   (@datagram_of Example.t class_x payload_5)
                   (TypedBytes.Build (@AADMeta.serialize byte_codec header_x
                                        ++ [x01; x02; x03; x04; x05]))
                   _ _ _)).
  - reflexivity.
  - vm_compute. reflexivity.
  - vm_compute. discriminate.
Defined.

Lemma inspect_raises_decrypt_raises_witness :
  @TaggedSecretBox.decrypt byte_codec clear_cipher Example.t zero_key
    (@type_of Example.t class_x) (TypedBytes.Build hello)
  = Throw (Error "unrecognized metadata version").
Proof.
  apply (@inspect_raises_decrypt_raises byte_codec clear_cipher).
  vm_compute. reflexivity.
Defined.


(** An [Example] of version "0.2.0": the envelope is made, and [decrypt]
    answers what the class answers, [null]. *)
Lemma decrypt_is_class_deserialize_witness :
  exists wire : TypedBytes.t,
    @TaggedSecretBox.encrypt byte_codec clear_cipher Example.t zero_key
      (@datagram_of Example.t class_x payload_0_2_0) nonce_12 = Return wire
    /\ @TaggedSecretBox.decrypt byte_codec clear_cipher Example.t zero_key
         (@type_of Example.t class_x) wire
       = Return None.
Proof.
  destruct (@decrypt_is_class_deserialize byte_codec clear_cipher Example.t
              Example.t zero_key (@datagram_of Example.t class_x payload_0_2_0)
              (@type_of Example.t class_x) nonce_12 [x01; x02; x03; x04; x05])
    as (wire & Henc & Hdec & _).
  - reflexivity.
  - reflexivity.
  - reflexivity.
  - vm_compute. discriminate.
  - exists wire. split; [exact Henc | exact Hdec].
Defined.


(** The test [datagram wrapper]. *)
Lemma wrapper_roundtrip_witness :
  exists wire : TypedBytes.t,
    @TaggedSecretBox.encrypt byte_codec clear_cipher value zero_key
      (Datagram.Build "foo" "0.1.0"
         (@Wrapper.serialize byte_codec json_foo
            (@Wrapper.wrapped range_0_1_x Foo foo_abc "0.1.0"))
         (@Wrapper.deserialize byte_codec range_0_1_x json_foo Foo))
      nonce_12 = Return wire
    /\ @TaggedSecretBox.decrypt byte_codec clear_cipher value zero_key
         (@Wrapper.class byte_codec range_0_1_x json_foo Foo) wire
       = Return (nullable foo_abc).
Proof.
  apply (@wrapper_roundtrip byte_codec range_0_1_x json_foo clear_cipher
           Foo foo_abc "0.1.0"
           (Datagram.Build "foo" "0.1.0"
              (@Wrapper.serialize byte_codec json_foo
                 (@Wrapper.wrapped range_0_1_x Foo foo_abc "0.1.0"))
              (@Wrapper.deserialize byte_codec range_0_1_x json_foo Foo))
           zero_key nonce_12
           (@Wrapper.serialize byte_codec json_foo
              (@Wrapper.wrapped range_0_1_x Foo foo_abc "0.1.0"))).
  - reflexivity.
  - vm_compute. reflexivity.
  - reflexivity.
  - reflexivity.
  - reflexivity.
  - reflexivity.
  - reflexivity.
  - vm_compute. discriminate.
Defined.

Lemma wrapper_foreign_tag_witness :
  @Wrapper.deserialize byte_codec range_0_1_x json_foo Bar
    (@Wrapper.serialize byte_codec json_foo
       (@Wrapper.wrapped range_0_1_x Foo foo_abc "0.1.0"))
    "0.1.0"
  = Return None.
Proof.
  apply (@wrapper_foreign_tag byte_codec range_0_1_x json_foo Foo Bar foo_abc
           "0.1.0" "0.1.0"
           (Datagram.Build "foo" "0.1.0"
              (@Wrapper.serialize byte_codec json_foo
                 (@Wrapper.wrapped range_0_1_x Foo foo_abc "0.1.0"))
              (@Wrapper.deserialize byte_codec range_0_1_x json_foo Foo))).
  - reflexivity.
  - vm_compute. reflexivity.
  - vm_compute. discriminate.
Defined.

Lemma example_through_envelope_witness :
  exists wire : TypedBytes.t,
    @TaggedSecretBox.encrypt byte_codec clear_cipher Example.t zero_key
      (@datagram_of Example.t (@Example.class range_0_1_x "x") payload_0_2_0)
      nonce_12 = Return wire
    /\ @TaggedSecretBox.decrypt byte_codec clear_cipher Example.t zero_key
         (@type_of Example.t (@Example.class range_0_1_x "x")) wire
       = Return None.
Proof.
  destruct (@example_through_envelope byte_codec range_0_1_x clear_cipher "x" tt
              zero_key payload_0_2_0 nonce_12 [x01; x02; x03; x04; x05])
    as (wire & Henc & Hdec & _).
  - reflexivity.
  - reflexivity.
  - reflexivity.
  - reflexivity.
  - reflexivity.
  - vm_compute. discriminate.
  - exists wire. split; [exact Henc | exact Hdec].
Defined.

Lemma foo_versions_apart_witness :
  exists wire : TypedBytes.t,
    @TaggedSecretBox.encrypt byte_codec clear_cipher FooV012.t zero_key
      (@FooV012.datagram byte_codec json_f011 f012) nonce_12 = Return wire
    /\ @TaggedSecretBox.decrypt byte_codec clear_cipher FooV011.t zero_key
         (@FooV011.class byte_codec json_f011) wire = Return None.
Proof.
  apply (@foo_versions_apart byte_codec json_f011 clear_cipher zero_key f012
           nonce_12 (@FooV012.serialize byte_codec json_f011 f012)).
  - reflexivity.
  - reflexivity.
  - reflexivity.
  - reflexivity.
  - reflexivity.
  - vm_compute. discriminate.
Defined.

Lemma foo_v011_roundtrip_witness :
  exists wire : TypedBytes.t,
    @TaggedSecretBox.encrypt byte_codec clear_cipher FooV011.t zero_key
      (@FooV011.datagram byte_codec json_f011 f011) nonce_12 = Return wire
    /\ @TaggedSecretBox.decrypt byte_codec clear_cipher FooV011.t zero_key
         (@FooV011.class byte_codec json_f011) wire = Return (Some f011).
Proof.
  apply (@foo_v011_roundtrip byte_codec json_f011 clear_cipher zero_key f011
           nonce_12 (@FooV011.serialize byte_codec json_f011 f011)).
  - vm_compute. reflexivity.
  - reflexivity.
  - reflexivity.
  - reflexivity.
  - reflexivity.
  - reflexivity.
  - vm_compute. discriminate.
Defined.

Lemma varintPrefixed_prefix_length_witness :
  len (varintPrefixed [x01; x02; x03; x04; x05; x06])
    = Varint.encodingLength (len [x01; x02; x03; x04; x05; x06])
      + len [x01; x02; x03; x04; x05; x06]
  /\ skipn (Z.to_nat (Varint.encodingLength (len [x01; x02; x03; x04; x05; x06])))
       (varintPrefixed [x01; x02; x03; x04; x05; x06])
     = [x01; x02; x03; x04; x05; x06].
Proof.
  apply varintPrefixed_prefix_length. vm_compute. discriminate.
Defined.

Lemma decrypt_value_inversion_witness :
  exists (m : AADMeta.t) (raw content plaintext : bytes),
    @AADMeta.unpack byte_codec
      (@AADMeta.serialize byte_codec header_x ++ [x01; x02; x03; x04; x05])
      = Return (Some (AADMeta.Unpacked (Some m) raw content))
    /\ @TypedBytes.inspect byte_codec
         (TypedBytes.Build (@AADMeta.serialize byte_codec header_x
                              ++ [x01; x02; x03; x04; x05]))
       = Return (Some m)
    /\ @open clear_cipher zero_key (AADMeta.nonce m) content raw
       = Return (Some plaintext)
    /\ DatagramConstructor.deserialize (@type_of Example.t class_x) plaintext
         (AADMeta.version m)
       = Return (Some payload_5)
    /\ DatagramConstructor.type (@type_of Example.t class_x) = AADMeta.type m.
Proof.
  apply (@decrypt_value_inversion byte_codec clear_cipher Example.t zero_key
           (@type_of Example.t class_x)
           (TypedBytes.Build (@AADMeta.serialize byte_codec header_x
                                ++ [x01; x02; x03; x04; x05]))
           payload_5).
  vm_compute. reflexivity.
Defined.
